(** * Resume text-extraction pipeline (src/lib/fileProcessor.ts)

    A shallow embedding of [parseResumeFile], [extractDataFromText] and the
    four field extractors, together with the JavaScript string and regular
    expression primitives they call.

    Modelling conventions.
    - A JavaScript string is a [string]; a character stands for one UTF-16
      code unit below 256 (the Latin-1 range), so [toLowerCase], [trim],
      [\w], [\s] and [\d] are the ECMAScript ones restricted to that range.
    - A value that may be [undefined] or [null] is an [option]; a method
      call on it raises [TypeError] in the monad [M].
    - [uuidv4()] reads the next identifier of an arbitrary stream carried by
      the [World]; exceptions are the [Throw] results of [M]. *)

From Stdlib Require Import List String Ascii Bool Arith Lia.
From Stdlib Require Import ZArith.
Import ListNotations.
Open Scope string_scope.
Open Scope list_scope.
Open Scope nat_scope.

Set Implicit Arguments.

(* ================================================================== *)
(** ** JavaScript strings *)
(* ================================================================== *)

Module JS.

Definition code (c : ascii) : nat := nat_of_ascii c.

Definition between (lo hi : nat) (c : ascii) : bool :=
  (lo <=? code c) && (code c <=? hi).

(** [\d] *)
Definition isDigit (c : ascii) : bool := between 48 57 c.

Definition isUpper (c : ascii) : bool := between 65 90 c.
Definition isLower (c : ascii) : bool := between 97 122 c.
Definition isAlpha (c : ascii) : bool := isUpper c || isLower c.

(** [\w] is [[A-Za-z0-9_]]. *)
Definition isWord (c : ascii) : bool :=
  isAlpha c || isDigit c || (code c =? 95).

(** [\s], which is also what [trim] removes: TAB, LF, VT, FF, CR, SPACE and
    NBSP are the white space and line terminator code units below 256. *)
Definition isSpace (c : ascii) : bool :=
  between 9 13 c || (code c =? 32) || (code c =? 160).

(** One code unit of [String.prototype.toLowerCase]: A-Z and the Latin-1
    capitals U+00C0..U+00DE (without the multiplication sign U+00D7). *)
Definition lowerChar (c : ascii) : ascii :=
  if isUpper c || (between 192 222 c && negb (code c =? 215))
  then ascii_of_nat (code c + 32) else c.

Fixpoint toLowerCase (s : string) : string :=
  match s with
  | EmptyString => EmptyString
  | String c r => String (lowerChar c) (toLowerCase r)
  end.

Fixpoint filterChars (keep : ascii -> bool) (s : string) : string :=
  match s with
  | EmptyString => EmptyString
  | String c r => if keep c then String c (filterChars keep r) else filterChars keep r
  end.

Fixpoint trimStart (s : string) : string :=
  match s with
  | EmptyString => EmptyString
  | String c r => if isSpace c then trimStart r else s
  end.

(** [trimEnd] keeps a character when it is not white space or when something
    survives to its right. *)
Fixpoint trimEnd (s : string) : string :=
  match s with
  | EmptyString => EmptyString
  | String c r =>
      match trimEnd r with
      | EmptyString => if isSpace c then EmptyString else String c EmptyString
      | r' => String c r'
      end
  end.

Definition trim (s : string) : string := trimEnd (trimStart s).

(** [s.includes(sub)] *)
Fixpoint includes (s sub : string) : bool :=
  prefix sub s ||
  match s with
  | EmptyString => false
  | String _ r => includes r sub
  end.

(** [s.split(sep)] for a separator that matches exactly one character of the
    class [sep] (the string ['\n'], the regular expression [/\d/]): never the
    empty array. *)
Fixpoint splitOn (sep : ascii -> bool) (s : string) : list string :=
  match s with
  | EmptyString => [EmptyString]
  | String c r =>
      if sep c then EmptyString :: splitOn sep r
      else match splitOn sep r with
           | [] => [String c EmptyString]
           | h :: t => String c h :: t
           end
  end.

(** [xs.some(p)] *)
Definition some {A} (p : A -> bool) (xs : list A) : bool := existsb p xs.

(** [v || ''] on a possibly undefined string: the empty string is falsy. *)
Definition orEmpty (v : option string) : string :=
  match v with
  | Some (String c r) => String c r
  | _ => EmptyString
  end.

(** [v || null] on a possibly undefined string. *)
Definition orNull (v : option string) : option string :=
  match v with
  | Some (String c r) => Some (String c r)
  | _ => None
  end.

(** [v || w] where [w] may itself be undefined. *)
Definition orElse (v w : option string) : option string :=
  match v with
  | Some (String c r) => Some (String c r)
  | _ => w
  end.

(* ------------------------------------------------------------------ *)
(** *** Regular expressions

    The fragment the source uses, with the backtracking semantics of
    ECMAScript: alternatives left to right, greedy quantifiers, leftmost
    match. Capture groups are not recorded: the source only reads element
    zero of a match. *)

Inductive regex : Type :=
| Chr (cls : ascii -> bool)          (* one character of a class *)
| Seq (r1 r2 : regex)
| Alt (r1 r2 : regex)
| Opt (r : regex)                    (* r?  *)
| Many (cls : ascii -> bool) (lo : nat)   (* cls{lo,}, so cls+ is Many cls 1 *)
| Bnd.                               (* \b  *)

Definition isWordAt (c : option ascii) : bool :=
  match c with Some a => isWord a | None => false end.

Definition headOf (s : string) : option ascii :=
  match s with String c _ => Some c | EmptyString => None end.

(** The continuation receives the last consumed character and the rest of
    the input; the result is the input left over after the whole match. *)
Fixpoint many (cls : ascii -> bool) (lo : nat) (prev : option ascii) (s : string)
    (k : option ascii -> string -> option string) {struct s} : option string :=
  let stop := if lo =? 0 then k prev s else None in
  match s with
  | EmptyString => stop
  | String c r =>
      if cls c then
        match many cls (pred lo) (Some c) r k with
        | Some out => Some out
        | None => stop
        end
      else stop
  end.

Fixpoint rx (r : regex) (prev : option ascii) (s : string)
    (k : option ascii -> string -> option string) {struct r} : option string :=
  match r with
  | Chr cls =>
      match s with
      | String c rest => if cls c then k (Some c) rest else None
      | EmptyString => None
      end
  | Seq a b => rx a prev s (fun p' s' => rx b p' s' k)
  | Alt a b =>
      match rx a prev s k with
      | Some out => Some out
      | None => rx b prev s k
      end
  | Opt a =>
      match rx a prev s k with
      | Some out => Some out
      | None => k prev s
      end
  | Many cls lo => many cls lo prev s k
  | Bnd => if xorb (isWordAt prev) (isWordAt (headOf s)) then k prev s else None
  end.

(** The text matched at the current position, if the expression matches
    there. *)
Definition matchHere (r : regex) (prev : option ascii) (s : string) : option string :=
  match rx r prev s (fun _ rest => Some rest) with
  | Some rest => Some (substring 0 (length s - length rest) s)
  | None => None
  end.

(** [s.match(r)?.[0]] for an expression without the [g] flag: the leftmost
    match. *)
Fixpoint searchFrom (r : regex) (prev : option ascii) (s : string) : option string :=
  match matchHere r prev s with
  | Some m => Some m
  | None =>
      match s with
      | EmptyString => None
      | String c rest => searchFrom r (Some c) rest
      end
  end.

Definition matchFirst (r : regex) (s : string) : option string := searchFrom r None s.

(** All matches of a [g] expression, left to right and without overlap:
    after a match of length [n] the scan resumes [n] characters further (one
    character further after an empty match). [skip] counts the characters
    of the last match still to be passed over. *)
Fixpoint scanAll (r : regex) (prev : option ascii) (s : string) (skip : nat)
    {struct s} : list string :=
  match skip with
  | S n =>
      match s with
      | EmptyString => []
      | String c rest => scanAll r (Some c) rest n
      end
  | O =>
      match matchHere r prev s with
      | Some m =>
          m :: match s with
               | EmptyString => []
               | String c rest => scanAll r (Some c) rest (pred (length m))
               end
      | None =>
          match s with
          | EmptyString => []
          | String c rest => scanAll r (Some c) rest 0
          end
      end
  end.

(** [s.match(r)] for an expression with the [g] flag: [null] when nothing
    matches, otherwise the array of the matched texts. *)
Definition matchAll (r : regex) (s : string) : option (list string) :=
  match scanAll r None s 0 with
  | [] => None
  | ms => Some ms
  end.

Definition exactly (a : ascii) (c : ascii) : bool := Ascii.eqb a c.

(** A literal letter under the [i] flag matches both of its cases. *)
Definition isNoCase (a : ascii) (c : ascii) : bool :=
  Ascii.eqb (lowerChar a) (lowerChar c).

Fixpoint lit (eq : ascii -> ascii -> bool) (s : string) (tail : regex) : regex :=
  match s with
  | EmptyString => tail
  | String c r => Seq (Chr (eq c)) (lit eq r tail)
  end.

End JS.

Import JS.

(* ================================================================== *)
(** ** Effects: exceptions and generated identifiers *)
(* ================================================================== *)

(** A thrown JavaScript value: [new Error(message)], a [TypeError] of the
    runtime, or whatever else a library rejects with. *)
Inductive exn : Type :=
| Error (message : string)
| TypeError (message : string).

(** What [uuidv4()] depends on: the stream of identifiers it is going to
    hand out, and how many it has handed out so far. *)
Record World : Type := mkWorld {
  uuids : nat -> string;
  issued : nat
}.

Inductive res (A : Type) : Type :=
| Ok (a : A) (w : World)
| Throw (e : exn) (w : World).
Arguments Throw {A} e w.

Definition M (A : Type) : Type := World -> res A.

Definition ret {A} (a : A) : M A := fun w => Ok a w.

Definition bind {A B} (m : M A) (k : A -> M B) : M B :=
  fun w => match m w with
           | Ok a w' => k a w'
           | Throw e w' => Throw e w'
           end.

Notation "x <- m ;; k" := (bind m (fun x => k))
  (at level 61, m at next level, right associativity).

Definition throw {A} (e : exn) : M A := fun w => Throw e w.

(** [try { body } catch (error) { handler }] *)
Definition tryCatch {A} (body : M A) (handler : exn -> M A) : M A :=
  fun w => match body w with
           | Ok a w' => Ok a w'
           | Throw e w' => handler e w'
           end.

Definition uuidv4 : M string :=
  fun w => Ok (uuids w (issued w)) (mkWorld (uuids w) (S (issued w))).

(** [recv.f(...)]: reading a property of [undefined] throws. *)
Definition method {A B} (recv : option A) (f : A -> B) : M B :=
  match recv with
  | Some a => ret (f a)
  | None => throw (TypeError "Cannot read properties of undefined")
  end.

(** How one turn of a loop body ends: it falls through or [continue]s
    ([Next]), or it [break]s. *)
Inductive ctl (V : Type) : Type :=
| Next (s : V)
| Break (s : V).

(** [for (let i = start; i < start + n; i++) body], on the loop variables
    [s]. *)
Fixpoint forLoop {V} (n i : nat) (body : nat -> V -> M (ctl V)) (s : V) : M V :=
  match n with
  | O => ret s
  | S n' =>
      r <- body i s ;;
      match r with
      | Next s' => forLoop n' (S i) body s'
      | Break s' => ret s'
      end
  end.

(** [xs[i]] when [xs] itself may be [null] ([dates?.[i]]). *)
Definition optIdx {A} (xs : option (list A)) (i : nat) : option A :=
  match xs with
  | Some l => nth_error l i
  | None => None
  end.

(* ================================================================== *)
(** ** Data model (the interfaces of [@/types]) *)
(* ================================================================== *)

Record PersonalInfo : Type := {
  name : string;
  email : string;
  phone : string;
  address : string;
  linkedin : option string;      (* linkedin?: string *)
  website : option string        (* website?: string *)
}.

Module Experience.
Record t : Type := mk {
  id : string;
  company : string;
  position : string;
  startDate : string;
  endDate : option string;       (* string | null *)
  description : string;
  achievements : list string
}.
End Experience.

(** [Partial<Experience>]: every property may be missing. *)
Module PartialExperience.
Record t : Type := mk {
  company : option string;
  position : option string;
  startDate : option string;
  endDate : option string;
  description : option string;
  achievements : option (list string)
}.
End PartialExperience.

Inductive Level : Type := beginner | intermediate | advanced | expert.

Module Skill.
Record t : Type := mk {
  name : string;
  level : Level;
  category : string
}.
End Skill.

Module Education.
Record t : Type := mk {
  id : string;
  institution : string;
  degree : string;
  field : string;
  startDate : string;
  endDate : string;
  gpa : option nat               (* gpa?: number; only undefined is stored *)
}.
End Education.

Record ExtractedData : Type := {
  personal_info : PersonalInfo;
  experience : list Experience.t;
  skills : list Skill.t;
  education : list Education.t
}.

(* ================================================================== *)
(** ** parseResumeFile *)
(* ================================================================== *)

Definition Buffer : Type := list nat.

Record PdfData : Type := { text : string }.
Record RawText : Type := { value : string }.

Section ParseResumeFile.

(** The two format decoders, [pdf-parse] and [mammoth.extractRawText]: they
    return a result or reject with some exception. *)
Variable pdf : Buffer -> M PdfData.
Variable mammoth_extractRawText : Buffer -> M RawText.

(** The [console.error] of the handler is not modelled. *)
Definition parseResumeFile (buffer : Buffer) (mimetype : string) : M string :=
  tryCatch
    (if String.eqb mimetype "application/pdf" then
       data <- pdf buffer ;;
       ret (text data)
     else if String.eqb mimetype
               "application/vnd.openxmlformats-officedocument.wordprocessingml.document" then
       result <- mammoth_extractRawText buffer ;;
       ret (value result)
     else if String.eqb mimetype "application/msword" then
       result <- mammoth_extractRawText buffer ;;
       ret (value result)
     else
       throw (Error "Unsupported file type"))
    (fun error => throw (Error "Failed to parse resume file")).

End ParseResumeFile.

(* ================================================================== *)
(** ** extractPersonalInfo *)
(* ================================================================== *)

Definition emailLocal (c : ascii) : bool :=
  isAlpha c || isDigit c || existsb (exactly c) (list_ascii_of_string "._%+-").
Definition emailHost (c : ascii) : bool :=
  isAlpha c || isDigit c || existsb (exactly c) (list_ascii_of_string ".-").
Definition emailTld (c : ascii) : bool :=
  isUpper c || exactly "|" c || isLower c.

(** [/\b[A-Za-z0-9._%+-]+@[A-Za-z0-9.-]+\.[A-Z|a-z]{2,}\b/] *)
Definition emailRegex : regex :=
  Seq Bnd (Seq (Many emailLocal 1) (Seq (Chr (exactly "@")) (Seq (Many emailHost 1)
    (Seq (Chr (exactly ".")) (Seq (Many emailTld 2) Bnd))))).

Definition phoneSep (c : ascii) : bool :=
  exactly "-" c || exactly "." c || isSpace c.

Definition digits3 : regex := Seq (Chr isDigit) (Seq (Chr isDigit) (Chr isDigit)).
Definition digits4 : regex := Seq (Chr isDigit) digits3.

(** [/(\+?1[-.\s]?)?\(?([0-9]{3})\)?[-.\s]?([0-9]{3})[-.\s]?([0-9]{4})/] *)
Definition phoneRegex : regex :=
  Seq (Opt (Seq (Opt (Chr (exactly "+"))) (Seq (Chr (exactly "1")) (Opt (Chr phoneSep)))))
  (Seq (Opt (Chr (exactly "(")))
  (Seq digits3
  (Seq (Opt (Chr (exactly ")")))
  (Seq (Opt (Chr phoneSep))
  (Seq digits3
  (Seq (Opt (Chr phoneSep))
       digits4)))))).

Definition linkedinSlug (c : ascii) : bool :=
  isLower c || isUpper c || isDigit c || exactly "-" c.

(** [/linkedin\.com\/in\/([a-zA-Z0-9-]+)/i] *)
Definition linkedinRegex : regex :=
  lit isNoCase "linkedin.com/in/" (Many linkedinSlug 1).

(** The class [[\w\s]], whose complement [name.replace(/[^\w\s]/gi, '')]
    deletes. *)
Definition nameKeep (c : ascii) : bool := isWord c || isSpace c.

(** The class [[\d+()-.\s]], whose complement
    [phone.replace(/[^\d+()-.\s]/g, '')] deletes; [)-.] is the range from
    [)] to [.]. *)
Definition phoneKeep (c : ascii) : bool :=
  isDigit c || exactly "+" c || exactly "(" c || between 41 46 c || isSpace c.

Definition extractPersonalInfo (lines : list string) (fullText : string) : PersonalInfo :=
  let email := orEmpty (matchFirst emailRegex fullText) in
  let phone := orEmpty (matchFirst phoneRegex fullText) in
  let linkedin := orEmpty (matchFirst linkedinRegex fullText) in
  let name := orEmpty (nth_error lines 0) in
  {| name := trim (filterChars nameKeep name);
     email := email;
     phone := filterChars phoneKeep phone;
     address := "";
     linkedin := Some linkedin;
     website := Some "" |}.

(* ================================================================== *)
(** ** extractExperience *)
(* ================================================================== *)

Definition experienceKeywords : list string :=
  ["experience"; "work history"; "employment"; "professional experience"].

(** [/\b(19|20)\d{2}\b/g] *)
Definition dateRegex : regex :=
  Seq Bnd (Seq (Alt (lit exactly "19" (Chr isDigit)) (lit exactly "20" (Chr isDigit)))
               (Seq (Chr isDigit) Bnd)).

(** The variables of the loop of [extractExperience]. *)
Record ExperienceVars : Type := {
  inExperienceSection : bool;
  currentExperience : option PartialExperience.t;
  experiences : list Experience.t
}.

(** The object pushed for a pending entry. *)
Definition finishExperience (id : string) (c : PartialExperience.t) : Experience.t :=
  {| Experience.id := id;
     Experience.company := orEmpty (PartialExperience.company c);
     Experience.position := orEmpty (PartialExperience.position c);
     Experience.startDate := orEmpty (PartialExperience.startDate c);
     Experience.endDate := orNull (PartialExperience.endDate c);
     Experience.description := orEmpty (PartialExperience.description c);
     Experience.achievements :=
       match PartialExperience.achievements c with Some a => a | None => [] end |}.

(** [if (currentExperience) { experiences.push({ id: uuidv4(), ... }) }],
    which the source has once in the loop and once after it. *)
Definition pushCurrent (cur : option PartialExperience.t) (exps : list Experience.t)
    : M (list Experience.t) :=
  match cur with
  | Some c => id <- uuidv4 ;; ret (exps ++ [finishExperience id c])
  | None => ret exps
  end.

(** The body of the loop, given [lines[i]]. *)
Definition experienceBody (lines_i : option string) (v : ExperienceVars)
    : M (ctl ExperienceVars) :=
  line <- method lines_i toLowerCase ;;
  if some (fun keyword => includes line keyword) experienceKeywords then
    ret (Next {| inExperienceSection := true;
                 currentExperience := currentExperience v;
                 experiences := experiences v |})
  else if inExperienceSection v then
    if includes line "education" || includes line "skills" || includes line "projects" then
      ret (Break v)
    else
      dates <- method lines_i (matchAll dateRegex) ;;
      match dates with
      | Some ds =>
          if 1 <=? List.length ds then
            exps <- pushCurrent (currentExperience v) (experiences v) ;;
            parts <- method lines_i (splitOn isDigit) ;;
            company <- method (nth_error parts 0) trim ;;
            ret (Next {| inExperienceSection := inExperienceSection v;
                         currentExperience :=
                           Some {| PartialExperience.company := Some company;
                                   PartialExperience.position := Some "";
                                   PartialExperience.startDate := nth_error ds 0;
                                   PartialExperience.endDate := orNull (nth_error ds 1);
                                   PartialExperience.description := Some "";
                                   PartialExperience.achievements := Some [] |};
                         experiences := exps |})
          else ret (Next v)
      | None => ret (Next v)
      end
  else ret (Next v).

Definition extractExperience (lines : list string) (fullText : string)
    : M (list Experience.t) :=
  v <- forLoop (List.length lines) 0 (fun i => experienceBody (nth_error lines i))
         {| inExperienceSection := false; currentExperience := None; experiences := [] |} ;;
  pushCurrent (currentExperience v) (experiences v).

(* ================================================================== *)
(** ** extractSkills *)
(* ================================================================== *)

Definition skillKeywords : list string :=
  ["skills"; "technical skills"; "core competencies"; "technologies"].

Definition commonSkills : list string :=
  ["javascript"; "python"; "java"; "react"; "node.js"; "sql"; "html"; "css";
   "project management"; "leadership"; "communication"; "teamwork"; "problem solving"].

Record SkillsVars : Type := {
  inSkillsSection : bool;
  skillsAcc : list Skill.t       (* the array [skills] *)
}.

(** The callback of [commonSkills.forEach], on the array being filled. *)
Definition skillCallback (line : string) (acc : list Skill.t) (skill : string)
    : list Skill.t :=
  if includes line skill then
    acc ++ [{| Skill.name := skill;
               Skill.level := intermediate;
               Skill.category :=
                 if includes skill "javascript" || includes skill "python"
                 then "Programming" else "General" |}]
  else acc.

Definition skillsBody (lines_i : option string) (v : SkillsVars) : M (ctl SkillsVars) :=
  line <- method lines_i toLowerCase ;;
  if some (fun keyword => includes line keyword) skillKeywords then
    ret (Next {| inSkillsSection := true; skillsAcc := skillsAcc v |})
  else if inSkillsSection v then
    if includes line "experience" || includes line "education" || includes line "projects" then
      ret (Break v)
    else
      ret (Next {| inSkillsSection := inSkillsSection v;
                   skillsAcc := fold_left (skillCallback line) commonSkills (skillsAcc v) |})
  else ret (Next v).

Definition extractSkills (lines : list string) (fullText : string) : M (list Skill.t) :=
  v <- forLoop (List.length lines) 0 (fun i => skillsBody (nth_error lines i))
         {| inSkillsSection := false; skillsAcc := [] |} ;;
  ret (skillsAcc v).

(* ================================================================== *)
(** ** extractEducation *)
(* ================================================================== *)

Definition educationKeywords : list string :=
  ["education"; "academic background"; "qualifications"].

Definition degreeKeywords : list string :=
  ["bachelor"; "master"; "phd"; "degree"; "diploma"; "certificate"].

Record EducationVars : Type := {
  inEducationSection : bool;
  educationAcc : list Education.t    (* the array [education] *)
}.

Definition educationBody (lines_i : option string) (v : EducationVars)
    : M (ctl EducationVars) :=
  line <- method lines_i toLowerCase ;;
  if some (fun keyword => includes line keyword) educationKeywords then
    ret (Next {| inEducationSection := true; educationAcc := educationAcc v |})
  else if inEducationSection v then
    if includes line "experience" || includes line "skills" || includes line "projects" then
      ret (Break v)
    else if some (fun keyword => includes line keyword) degreeKeywords then
      dates <- method lines_i (matchAll dateRegex) ;;
      id <- uuidv4 ;;
      ret (Next {| inEducationSection := inEducationSection v;
                   educationAcc :=
                     educationAcc v ++
                     [{| Education.id := id;
                         Education.institution := "";
                         Education.degree := line;
                         Education.field := "";
                         Education.startDate := orEmpty (optIdx dates 0);
                         Education.endDate :=
                           orEmpty (orElse (optIdx dates 1) (optIdx dates 0));
                         Education.gpa := None |}] |})
    else ret (Next v)
  else ret (Next v).

Definition extractEducation (lines : list string) (fullText : string)
    : M (list Education.t) :=
  v <- forLoop (List.length lines) 0 (fun i => educationBody (nth_error lines i))
         {| inEducationSection := false; educationAcc := [] |} ;;
  ret (educationAcc v).

(* ================================================================== *)
(** ** extractDataFromText *)
(* ================================================================== *)

Definition isNewline (c : ascii) : bool := code c =? 10.

(** [text.split('\n').map(line => line.trim()).filter(line => line.length > 0)] *)
Definition linesOf (text : string) : list string :=
  filter (fun line => 0 <? String.length line) (map trim (splitOn isNewline text)).

Definition extractDataFromText (text : string) : M ExtractedData :=
  let lines := linesOf text in
  let p := extractPersonalInfo lines text in
  e <- extractExperience lines text ;;
  s <- extractSkills lines text ;;
  d <- extractEducation lines text ;;
  ret {| personal_info := p; experience := e; skills := s; education := d |}.

(* ================================================================== *)
(** ** The contract, in the words of the specification *)
(* ================================================================== *)

(** The words matched by an expression, word boundaries left aside. *)
Fixpoint allChars (cls : ascii -> bool) (m : string) : bool :=
  match m with
  | EmptyString => true
  | String c r => cls c && allChars cls r
  end.

Fixpoint lang (r : regex) (m : string) : Prop :=
  match r with
  | Chr cls => exists c, m = String c "" /\ cls c = true
  | Seq a b => exists m1 m2, m = (m1 ++ m2)%string /\ lang a m1 /\ lang b m2
  | Alt a b => lang a m \/ lang b m
  | Opt a => m = "" \/ lang a m
  | Many cls lo => lo <= String.length m /\ allChars cls m = true
  | Bnd => m = ""
  end.

(** A 4-digit year token: 19xx or 20xx. *)
Definition isYear (m : string) : bool :=
  match m with
  | String a (String b (String c (String d EmptyString))) =>
      ((exactly "1" a && exactly "9" b) || (exactly "2" a && exactly "0" b))
      && isDigit c && isDigit d
  | _ => false
  end.

(** The year tokens of a line, left to right. *)
Definition years (line : string) : list string := scanAll dateRegex None line 0.

(** The part of a string before its first character of a class. *)
Fixpoint beforeFirst (cls : ascii -> bool) (s : string) : string :=
  match s with
  | EmptyString => EmptyString
  | String c r => if cls c then EmptyString else String c (beforeFirst cls r)
  end.

(** Section 4.2: the states of a section scan. *)
Inductive Phase : Type := BeforeSection | InsideSection | Done.

Definition hasKeyword (keywords : list string) (rawLine : string) : bool :=
  existsb (fun keyword => includes (toLowerCase rawLine) keyword) keywords.

(** One line of the scan: the next state, and whether the line is handed to
    the field-specific pattern match (step 5). *)
Definition classify (headers stops : list string) (ph : Phase) (rawLine : string)
    : Phase * bool :=
  match ph with
  | Done => (Done, false)
  | BeforeSection =>
      if hasKeyword headers rawLine then (InsideSection, false) else (BeforeSection, false)
  | InsideSection =>
      if hasKeyword headers rawLine then (InsideSection, false)
      else if hasKeyword stops rawLine then (Done, false)
      else (InsideSection, true)
  end.

Fixpoint phaseAfter (headers stops : list string) (ph : Phase) (lines : list string)
    : Phase :=
  match lines with
  | [] => ph
  | l :: rest => phaseAfter headers stops (fst (classify headers stops ph l)) rest
  end.

(** The lines of the target section that are treated as data. *)
Fixpoint sectionLines (headers stops : list string) (ph : Phase) (lines : list string)
    : list string :=
  match lines with
  | [] => []
  | l :: rest =>
      let r := classify headers stops ph l in
      (if snd r then [l] else []) ++ sectionLines headers stops (fst r) rest
  end.

(** The lines that the scan reaches while it is inside the section: the
    loop body runs on them with the section flag set. A header line of the
    section met there and the line that ends the scan are among them. *)
Fixpoint reachedInside (headers stops : list string) (ph : Phase) (lines : list string)
    : list string :=
  match lines with
  | [] => []
  | l :: rest =>
      (match ph with InsideSection => [l] | _ => [] end)
      ++ reachedInside headers stops (fst (classify headers stops ph l)) rest
  end.

(** A line with neither a header keyword of the section nor a stop keyword. *)
Definition plainLine (headers stops : list string) (rawLine : string) : bool :=
  negb (hasKeyword headers rawLine) && negb (hasKeyword stops rawLine).

Definition experienceStops : list string := ["education"; "skills"; "projects"].
Definition skillStops : list string := ["experience"; "education"; "projects"].
Definition educationStops : list string := ["experience"; "skills"; "projects"].

(** A qualifying line of the experience section: at least one year token. *)
Definition hasYear (rawLine : string) : bool :=
  match years rawLine with [] => false | _ :: _ => true end.

(** The entry of a qualifying line (section 4.4). *)
Definition experienceOf (id rawLine : string) : Experience.t :=
  {| Experience.id := id;
     Experience.company := trim (beforeFirst isDigit rawLine);
     Experience.position := "";
     Experience.startDate := nth 0 (years rawLine) "";
     Experience.endDate := nth_error (years rawLine) 1;
     Experience.description := "";
     Experience.achievements := [] |}.

(** Entries for the lines [ls], with the identifiers [u n], [u (n+1)], ... *)
Fixpoint numbered {A B} (mk : string -> B -> A) (u : nat -> string) (n : nat)
    (ls : list B) : list A :=
  match ls with
  | [] => []
  | l :: rest => mk (u n) l :: numbered mk u (S n) rest
  end.

(** The hard-coded programming subset of the vocabulary. *)
Definition programmingSubset : list string := ["javascript"; "python"].

Definition skillOf (term : string) : Skill.t :=
  {| Skill.name := term;
     Skill.level := intermediate;
     Skill.category :=
       if existsb (String.eqb term) programmingSubset then "Programming" else "General" |}.

(** The entries of one line of the skills section (section 4.5). *)
Definition skillsOfLine (rawLine : string) : list Skill.t :=
  map skillOf (filter (fun term => includes (toLowerCase rawLine) term) commonSkills).

(** A qualifying line of the education section: some degree keyword. *)
Definition hasDegree (rawLine : string) : bool := hasKeyword degreeKeywords rawLine.

(** What the education extractor stores for a qualifying line: the degree is
    the lower-cased line. *)
Definition educationOf (id rawLine : string) : Education.t :=
  {| Education.id := id;
     Education.institution := "";
     Education.degree := toLowerCase rawLine;
     Education.field := "";
     Education.startDate := nth 0 (years rawLine) "";
     Education.endDate := nth 1 (years rawLine) (nth 0 (years rawLine) "");
     Education.gpa := None |}.

(** The first line that is not blank, trimmed; empty when there is none. *)
Fixpoint firstNonBlank (ls : list string) : string :=
  match ls with
  | [] => ""
  | l :: rest => if 0 <? String.length (trim l) then trim l else firstNonBlank rest
  end.

Definition firstLine (text : string) : string := firstNonBlank (splitOn isNewline text).

(** A letter, in the modelled range: the ASCII letters and the letters of
    Latin-1 (the ordinal indicators, the micro sign, U+00C0..U+00FF without
    the multiplication and division signs). *)
Definition isLetter (c : ascii) : bool :=
  isAlpha c
  || (code c =? 170) || (code c =? 181) || (code c =? 186)
  || (between 192 255 c && negb (code c =? 215) && negb (code c =? 247)).

(** The name as the specification words it: every character that is neither
    alphanumeric nor white space removed. *)
Definition stripNonAlphanumeric (s : string) : string :=
  filterChars (fun c => isLetter c || isDigit c || isSpace c) s.

(** Outputs compared up to the generated identifiers. *)
Definition eraseIds (d : ExtractedData) : ExtractedData :=
  {| personal_info := personal_info d;
     experience :=
       map (fun e => Experience.mk "" (Experience.company e) (Experience.position e)
                       (Experience.startDate e) (Experience.endDate e)
                       (Experience.description e) (Experience.achievements e))
           (experience d);
     skills := skills d;
     education :=
       map (fun e => Education.mk "" (Education.institution e) (Education.degree e)
                       (Education.field e) (Education.startDate e) (Education.endDate e)
                       (Education.gpa e))
           (education d) |}.

(** The loop over the lines themselves, without the index. *)
Fixpoint runLines {V} (body : option string -> V -> M (ctl V)) (ls : list string) (v : V)
    : M V :=
  match ls with
  | [] => ret v
  | l :: rest =>
      r <- body (Some l) v ;;
      match r with
      | Next v' => runLines body rest v'
      | Break v' => ret v'
      end
  end.

(** The same loop, also telling whether it was left by [break]. *)
Fixpoint scanLines {V} (body : option string -> V -> M (ctl V)) (ls : list string) (v : V)
    : M (ctl V) :=
  match ls with
  | [] => ret (Next v)
  | l :: rest =>
      r <- body (Some l) v ;;
      match r with
      | Next v' => scanLines body rest v'
      | Break v' => ret (Break v')
      end
  end.

Definition experienceStart : ExperienceVars :=
  {| inExperienceSection := false; currentExperience := None; experiences := [] |}.

(** The loop variable [inXSection] as a state of the scan. *)
Definition phaseOf (inSection : bool) : Phase :=
  if inSection then InsideSection else BeforeSection.

(** The pending entry that the source builds for a qualifying line. *)
Definition pendingOf (rawLine : string) : PartialExperience.t :=
  {| PartialExperience.company := Some (trim (beforeFirst isDigit rawLine));
     PartialExperience.position := Some "";
     PartialExperience.startDate := nth_error (years rawLine) 0;
     PartialExperience.endDate := orNull (nth_error (years rawLine) 1);
     PartialExperience.description := Some "";
     PartialExperience.achievements := Some [] |}.

Definition optList {A} (o : option A) : list A :=
  match o with Some a => [a] | None => [] end.

(** Every character class of an expression lies within [P]. *)
Fixpoint classesWithin (P : ascii -> bool) (r : regex) : Prop :=
  match r with
  | Chr cls => forall c, cls c = true -> P c = true
  | Many cls _ => forall c, cls c = true -> P c = true
  | Seq a b => classesWithin P a /\ classesWithin P b
  | Alt a b => classesWithin P a /\ classesWithin P b
  | Opt a => classesWithin P a
  | Bnd => True
  end.

(** The value of a computation that returned. *)
Definition returned {A} (r : res A) : option A :=
  match r with
  | Ok a _ => Some a
  | Throw _ _ => None
  end.

(** The three recognized media types. *)
Definition supported (mimetype : string) : bool :=
  String.eqb mimetype "application/pdf"
  || String.eqb mimetype
       "application/vnd.openxmlformats-officedocument.wordprocessingml.document"
  || String.eqb mimetype "application/msword".

(** The rejecting mock decoder of the test suite. *)
Definition pdfRejects (buffer : Buffer) : M PdfData :=
  throw (Error "PDF parsing failed").

(** Sample identifier stream and line break for the examples. *)
Definition sampleUuid (n : nat) : string :=
  String.append "uuid-" (String (ascii_of_nat (48 + n)) "").
Definition sampleWorld : World := mkWorld sampleUuid 0.
Definition LF : string := String (ascii_of_nat 10) "".

(* ================================================================== *)
(** ** The caller: the upload filter of pages/api/upload-resume.ts *)
(* ================================================================== *)

(** [({ mimetype }) => mimetype?.includes('pdf') || mimetype?.includes('msword')
    || mimetype?.includes('wordprocessingml')], a falsy result rejecting the
    file. *)
Definition resumeUploadFilter (mimetype : option string) : bool :=
  match mimetype with
  | Some m => includes m "pdf" || includes m "msword" || includes m "wordprocessingml"
  | None => false
  end.

(* ================================================================== *)
(** ** src/lib/aiProcessor.ts: the local fallbacks *)
(* ================================================================== *)

Module AiProcessor.

Inductive ExperienceLevel : Type := entry | mid | senior.

Record JobRequirements : Type := {
  required_skills : list string;
  preferred_skills : list string;
  experience_level : ExperienceLevel;
  responsibilities : list string;
  qualifications : list string
}.

Definition commonSkills : list string :=
  ["JavaScript"; "Python"; "Java"; "React"; "Node.js"; "SQL"; "HTML"; "CSS";
   "Project Management"; "Leadership"; "Communication"; "Teamwork"; "Problem Solving";
   "Data Analysis"; "Machine Learning"; "Cloud Computing"; "DevOps"; "Agile"].

Definition extractSkillsFromText (text : string) : list string :=
  filter (fun skill => includes (toLowerCase text) (toLowerCase skill)) commonSkills.

Definition determineExperienceLevel (jobDescription : string) : ExperienceLevel :=
  let text := toLowerCase jobDescription in
  if includes text "senior" || includes text "lead" || includes text "principal" then
    senior
  else if includes text "junior" || includes text "entry" || includes text "graduate" then
    entry
  else mid.

(** The arithmetic of JavaScript Numbers (IEEE doubles) that the score uses
    is kept abstract: what is proved holds for any such arithmetic. *)
Class JsNumber : Type := {
  number : Type;
  ofLength : nat -> number;                 (* [xs.length] *)
  hundred : number;                         (* the literal [100] *)
  divide : number -> number -> number;      (* [a / b] *)
  times : number -> number -> number;       (* [a * b] *)
  Math_round : number -> number;
  Math_min : number -> number -> number
}.

Section Score.

Context {N : JsNumber}.

Record AIEnhancements : Type := {
  matched_skills : list string;
  optimized_experience : list Experience.t;
  suggestions : list string;
  ats_score : number;
  keyword_density : list (string * number)    (* Record<string, number> *)
}.

Definition calculateATSScore (resumeData : ExtractedData) (jobRequirements : JobRequirements)
    : number :=
  let resumeSkills := map (fun skill => toLowerCase (Skill.name skill)) (skills resumeData) in
  let requiredSkills := map (fun skill => toLowerCase skill) (required_skills jobRequirements) in
  let matchedSkills :=
    filter (fun skill =>
              some (fun required => includes required skill || includes skill required)
                   requiredSkills)
           resumeSkills in
  let matchPercentage :=
    times (divide (ofLength (List.length matchedSkills)) (ofLength (List.length requiredSkills)))
          hundred in
  Math_min (Math_round matchPercentage) hundred.

Definition createFallbackEnhancements (resumeData : ExtractedData)
    (jobRequirements : JobRequirements) : AIEnhancements :=
  let resumeSkills := map (fun skill => Skill.name skill) (skills resumeData) in
  let matchedSkills :=
    filter (fun skill =>
              some (fun required =>
                      includes (toLowerCase skill) (toLowerCase required)
                      || includes (toLowerCase required) (toLowerCase skill))
                   (required_skills jobRequirements))
           resumeSkills in
  {| matched_skills := matchedSkills;
     optimized_experience := experience resumeData;
     suggestions :=
       ["Consider adding more specific achievements with quantifiable results";
        "Include relevant keywords from the job description";
        "Highlight transferable skills that match the job requirements"];
     ats_score := calculateATSScore resumeData jobRequirements;
     keyword_density := [] |}.

End Score.

End AiProcessor.

(* ================================================================== *)
(** ** src/lib/auth.ts: one-time codes and tokens *)
(* ================================================================== *)

Module Auth.

Definition OTP_EXPIRY_MINUTES : Z := 10.

Record StoredOtp : Type := { otp : string; expires : Z }.

(** [otpStorage], a [Map] from the email to the stored code, on which the
    source calls [get], [set] and [delete] only. Times are the integer
    milliseconds of [Date.now()], on which the addition is exact. *)
Definition OtpStorage : Type := string -> option StoredOtp.

Definition Map_empty : OtpStorage := fun _ => None.

Definition Map_get (m : OtpStorage) (key : string) : option StoredOtp := m key.

Definition Map_set (m : OtpStorage) (key : string) (v : StoredOtp) : OtpStorage :=
  fun k => if String.eqb k key then Some v else m k.

Definition Map_delete (m : OtpStorage) (key : string) : OtpStorage :=
  fun k => if String.eqb k key then None else m k.

(** [now] is what [Date.now()] returns during the call. *)
Definition storeOTP (email otp : string) (now : Z) (otpStorage : OtpStorage) : OtpStorage :=
  let expires := (now + OTP_EXPIRY_MINUTES * 60 * 1000)%Z in
  Map_set otpStorage email {| otp := otp; expires := expires |}.

Definition verifyOTP (email providedOTP : string) (now : Z) (otpStorage : OtpStorage)
    : bool * OtpStorage :=
  match Map_get otpStorage email with
  | None => (false, otpStorage)
  | Some stored =>
      if (expires stored <? now)%Z then (false, Map_delete otpStorage email)
      else
        let isValid := String.eqb (otp stored) providedOTP in
        (isValid, if isValid then Map_delete otpStorage email else otpStorage)
  end.

Inductive Subscription : Type := free | premium.

Record User : Type := {
  id : string;
  email : string;
  created_at : string;
  last_login : string;
  subscription_type : Subscription
}.

(** The payload of a verified token, of which [userId] is read. *)
Record Decoded : Type := { userId : string }.

Section Tokens.

(** [jwt.verify(token, JWT_SECRET)], which throws on a bad token, and
    [getCosmosContainer(CONTAINERS.USERS).item(id).read<User>()], whose
    [resource] may be undefined and which may throw. *)
Variable jwt_verify : string -> M Decoded.
Variable readUser : string -> M (option User).

Definition verifyJWT (token : string) : M (option Decoded) :=
  tryCatch (decoded <- jwt_verify token ;; ret (Some decoded))
           (fun error => ret None).

Definition getUserFromToken (token : string) : M (option User) :=
  decoded <- verifyJWT token ;;
  match decoded with
  | None => ret None
  | Some d =>
      tryCatch (resource <- readUser (userId d) ;; ret resource)
               (fun error => ret None)
  end.

End Tokens.

End Auth.

(** An identifier stream without repetition, for the examples. *)
Fixpoint tallyUuid (n : nat) : string :=
  match n with
  | O => "id"
  | S k => String "x" (tallyUuid k)
  end.

(** Numbers as the expressions that denote them: the free instance of the
    arithmetic, used in the examples. *)
Inductive NumberExpr : Type :=
| Length (n : nat)
| Hundred
| Divide (a b : NumberExpr)
| Times (a b : NumberExpr)
| Round (a : NumberExpr)
| Min (a b : NumberExpr).

Definition symbolicNumber : AiProcessor.JsNumber :=
  {| AiProcessor.number := NumberExpr;
     AiProcessor.ofLength := Length;
     AiProcessor.hundred := Hundred;
     AiProcessor.divide := Divide;
     AiProcessor.times := Times;
     AiProcessor.Math_round := Round;
     AiProcessor.Math_min := Min |}.

(** Counting the characters of a class. *)
Fixpoint countIf (cls : ascii -> bool) (s : string) : nat :=
  match s with
  | EmptyString => 0
  | String c r => (if cls c then 1 else 0) + countIf cls r
  end.

Definition headNotSpace (s : string) : bool :=
  match s with
  | EmptyString => true
  | String c _ => negb (isSpace c)
  end.

(* ================================================================== *)
(** ** Lemmas on the primitives *)
(* ================================================================== *)

Lemma splitOn_head (sep : ascii -> bool) (s : string) :
  exists t, splitOn sep s = beforeFirst sep s :: t.
Proof.
  induction s as [|c r [t IH]]; simpl.
  - now exists [].
  - destruct (sep c).
    + now exists (splitOn sep r).
    + rewrite IH. now exists t.
Qed.

Lemma orEmpty_Some (m : string) : orEmpty (Some m) = m.
Proof. now destruct m. Qed.

Lemma orEmpty_nth (ds : list string) (i : nat) : orEmpty (nth_error ds i) = nth i ds "".
Proof.
  revert i; induction ds as [|d ds IH]; intros [|i]; simpl; auto.
  now destruct d.
Qed.

Lemma orNull_idem (v : option string) : orNull (orNull v) = orNull v.
Proof. now destruct v as [[|c r]|]. Qed.

Lemma append_assoc (a b c : string) : ((a ++ b) ++ c)%string = (a ++ (b ++ c))%string.
Proof. induction a; simpl; congruence. Qed.

Lemma length_append (a b : string) :
  String.length (a ++ b)%string = String.length a + String.length b.
Proof. induction a; simpl; congruence. Qed.

Lemma substring_prefix (m rest : string) :
  substring 0 (String.length (m ++ rest)%string - String.length rest) (m ++ rest)%string = m.
Proof.
  rewrite length_append.
  replace (String.length m + String.length rest - String.length rest) with (String.length m) by lia.
  induction m as [|c m IH]; simpl.
  - now destruct rest.
  - now rewrite IH.
Qed.

Lemma allChars_append (cls : ascii -> bool) (a b : string) :
  allChars cls (a ++ b)%string = allChars cls a && allChars cls b.
Proof. induction a; simpl; [reflexivity|]. rewrite IHa. now rewrite andb_assoc. Qed.

(** Soundness of the matcher: what it consumes before calling its
    continuation is a word of the expression. *)
Lemma many_sound (cls : ascii -> bool) (s : string) :
  forall lo prev k out,
    many cls lo prev s k = Some out ->
    exists m rest p, s = (m ++ rest)%string /\ lang (Many cls lo) m /\ k p rest = Some out.
Proof.
  induction s as [|c r IH]; intros lo prev k out H; simpl in H.
  - destruct (Nat.eqb_spec lo 0); [|discriminate].
    exists "", "", prev. subst; simpl; auto.
  - assert (Stop : (if lo =? 0 then k prev (String c r) else None) = Some out ->
                   exists m rest p, String c r = (m ++ rest)%string /\
                                    lang (Many cls lo) m /\ k p rest = Some out).
    { destruct (Nat.eqb_spec lo 0); [|discriminate]. intros Hk.
      exists "", (String c r), prev. subst; simpl; auto. }
    destruct (cls c) eqn:Hc; [|auto].
    destruct (many cls (pred lo) (Some c) r k) as [o|] eqn:Hm; [|auto].
    injection H as ->.
    destruct (IH _ _ _ _ Hm) as (m & rest & p & -> & [Hlo Hall] & Hk).
    exists (String c m), rest, p. simpl. rewrite Hc, Hall. repeat split; auto. lia.
Qed.

Lemma rx_sound (r : regex) :
  forall prev s k out,
    rx r prev s k = Some out ->
    exists m rest p, s = (m ++ rest)%string /\ lang r m /\ k p rest = Some out.
Proof.
  induction r as [cls|a IHa b IHb|a IHa b IHb|a IHa|cls lo|]; intros prev s k out H; simpl in H.
  - destruct s as [|c rest]; [discriminate|].
    destruct (cls c) eqn:Hc; [|discriminate].
    exists (String c ""), rest, (Some c). simpl. eauto.
  - destruct (IHa _ _ _ _ H) as (m1 & s1 & p1 & -> & L1 & H1).
    destruct (IHb _ _ _ _ H1) as (m2 & s2 & p2 & -> & L2 & H2).
    exists (m1 ++ m2)%string, s2, p2. rewrite append_assoc. simpl. eauto 8.
  - destruct (rx a prev s k) as [o|] eqn:Ha.
    + injection H as ->. destruct (IHa _ _ _ _ Ha) as (m & rest & p & -> & L & Hk).
      exists m, rest, p. simpl. auto.
    + destruct (IHb _ _ _ _ H) as (m & rest & p & -> & L & Hk).
      exists m, rest, p. simpl. auto.
  - destruct (rx a prev s k) as [o|] eqn:Ha.
    + injection H as ->. destruct (IHa _ _ _ _ Ha) as (m & rest & p & -> & L & Hk).
      exists m, rest, p. simpl. auto.
    + exists "", s, prev. simpl. auto.
  - eapply many_sound; eauto.
  - destruct (xorb _ _); [|discriminate]. exists "", s, prev. simpl. auto.
Qed.

Lemma matchHere_sound (r : regex) (prev : option ascii) (s m : string) :
  matchHere r prev s = Some m -> lang r m.
Proof.
  unfold matchHere. destruct (rx r prev s _) as [rest|] eqn:H; [|discriminate].
  intros [= <-]. destruct (rx_sound _ _ _ _ H) as (m & rest' & p & -> & L & [= ->]).
  now rewrite substring_prefix.
Qed.

Lemma matchFirst_sound (r : regex) (s m : string) : matchFirst r s = Some m -> lang r m.
Proof.
  unfold matchFirst. generalize (@None ascii). induction s as [|c rest IH]; intros prev; simpl.
  - destruct (matchHere r prev "") eqn:H; [|discriminate]. intros [= <-].
    eapply matchHere_sound; eauto.
  - destruct (matchHere r prev (String c rest)) eqn:H.
    + intros [= <-]. eapply matchHere_sound; eauto.
    + apply IH.
Qed.

Lemma scanAll_sound (r : regex) (s : string) :
  forall prev skip m, In m (scanAll r prev s skip) -> lang r m.
Proof.
  induction s as [|c rest IH]; intros prev [|n] m; simpl; try tauto.
  - destruct (matchHere r prev "") eqn:H; simpl; [|tauto].
    intros [<-|[]]. eapply matchHere_sound; eauto.
  - destruct (matchHere r prev (String c rest)) eqn:H; simpl.
    + intros [<-|Hin]; [eapply matchHere_sound; eauto | eapply IH; eauto].
    + apply IH.
  - apply IH.
Qed.

Lemma dateRegex_year (m : string) : lang dateRegex m -> isYear m = true.
Proof.
  unfold dateRegex; cbn [lang lit].
  intros (m0 & m1 & -> & -> & m2 & m3 & -> & Hp & m4 & m5 & -> & (d & -> & Hd) & ->).
  destruct Hp as [Hp|Hp];
    destruct Hp as (x1 & x2 & -> & (a & -> & Ha) & y1 & y2 & -> & (b & -> & Hb) & (c & -> & Hc));
    cbn [append isYear]; unfold exactly in *;
    rewrite Ha, Hb, Hc, Hd; rewrite ?orb_true_r; reflexivity.
Qed.

Lemma years_are_years (line y : string) : In y (years line) -> isYear y = true.
Proof. intros H. apply dateRegex_year. eapply scanAll_sound; eauto. Qed.

Lemma year_nonempty (y : string) : isYear y = true -> orNull (Some y) = Some y.
Proof. destruct y; [discriminate|reflexivity]. Qed.

Lemma orNull_years (line : string) (i : nat) :
  orNull (nth_error (years line) i) = nth_error (years line) i.
Proof.
  destruct (nth_error (years line) i) as [y|] eqn:H; [|reflexivity].
  apply year_nonempty, (years_are_years line). eapply nth_error_In; eauto.
Qed.

Lemma orElse_years (line : string) :
  orEmpty (orElse (nth_error (years line) 1) (nth_error (years line) 0))
  = nth 1 (years line) (nth 0 (years line) "").
Proof.
  pose proof (years_are_years line) as Hy.
  destruct (years line) as [|a [|b t]]; simpl in *; auto.
  - now destruct a.
  - assert (Hb : isYear b = true) by auto. destruct b; [discriminate|reflexivity].
Qed.

Lemma optIdx_matchAll (line : string) (i : nat) :
  optIdx (matchAll dateRegex line) i = nth_error (years line) i.
Proof.
  unfold matchAll, years. destruct (scanAll dateRegex None line 0); simpl; [now destruct i|reflexivity].
Qed.

(* ================================================================== *)
(** ** Lemmas on the scans *)
(* ================================================================== *)

Lemma forLoop_runLines {V} (body : option string -> V -> M (ctl V)) (ls : list string) :
  forall pre v w,
    forLoop (List.length ls) (List.length pre) (fun i => body (nth_error (pre ++ ls) i)) v w
    = runLines body ls v w.
Proof.
  induction ls as [|l rest IH]; intros pre v w; simpl; [reflexivity|].
  unfold bind. rewrite nth_error_app2, Nat.sub_diag by lia. simpl.
  destruct (body (Some l) v w) as [[v'|v'] w'|e w']; auto.
  specialize (IH (pre ++ [l]) v' w').
  rewrite length_app, <- app_assoc in IH. simpl in IH.
  rewrite Nat.add_1_r in IH. exact IH.
Qed.

Lemma forLoop_lines {V} (body : option string -> V -> M (ctl V)) (ls : list string) v w :
  forLoop (List.length ls) 0 (fun i => body (nth_error ls i)) v w = runLines body ls v w.
Proof. exact (forLoop_runLines body ls [] v w). Qed.

Lemma experience_stops (line : string) :
  includes (toLowerCase line) "education" || includes (toLowerCase line) "skills"
    || includes (toLowerCase line) "projects"
  = hasKeyword experienceStops line.
Proof. unfold hasKeyword; simpl. now rewrite orb_false_r, orb_assoc. Qed.

Lemma skill_stops (line : string) :
  includes (toLowerCase line) "experience" || includes (toLowerCase line) "education"
    || includes (toLowerCase line) "projects"
  = hasKeyword skillStops line.
Proof. unfold hasKeyword; simpl. now rewrite orb_false_r, orb_assoc. Qed.

Lemma education_stops (line : string) :
  includes (toLowerCase line) "experience" || includes (toLowerCase line) "skills"
    || includes (toLowerCase line) "projects"
  = hasKeyword educationStops line.
Proof. unfold hasKeyword; simpl. now rewrite orb_false_r, orb_assoc. Qed.

Lemma sectionLines_Done (headers stops : list string) (ls : list string) :
  sectionLines headers stops Done ls = [].
Proof. induction ls; simpl; auto. Qed.

Lemma phaseAfter_Done (headers stops : list string) (ls : list string) :
  phaseAfter headers stops Done ls = Done.
Proof. induction ls; simpl; auto. Qed.

Lemma sectionLines_app (headers stops : list string) (a b : list string) :
  forall ph,
    sectionLines headers stops ph (a ++ b)
    = sectionLines headers stops ph a
      ++ sectionLines headers stops (phaseAfter headers stops ph a) b.
Proof.
  induction a as [|l a IH]; intros ph; simpl; [reflexivity|].
  now rewrite IH, app_assoc.
Qed.

(** A header line is classified by the header test alone. *)
Lemma classify_header (headers stops : list string) (ph : Phase) (h : string) :
  hasKeyword headers h = true ->
  classify headers stops ph h
  = (match ph with Done => Done | _ => InsideSection end, false).
Proof. intros H. destruct ph; simpl; now rewrite ?H. Qed.

Lemma world_eta (w : World) : mkWorld (uuids w) (issued w) = w.
Proof. now destruct w. Qed.

Lemma finish_pending (id line : string) :
  finishExperience id (pendingOf line) = experienceOf id line.
Proof.
  unfold finishExperience, pendingOf, experienceOf.
  cbn -[years nth_error nth orNull orEmpty trim beforeFirst].
  now rewrite orNull_idem, orNull_years, orEmpty_nth, orEmpty_Some.
Qed.

Lemma numbered_pending (u : nat -> string) (ls : list string) :
  forall n, numbered finishExperience u n (map pendingOf ls) = numbered experienceOf u n ls.
Proof. induction ls as [|l r IH]; intros n; simpl; [|rewrite IH, finish_pending]; reflexivity. Qed.

Lemma matchAll_years (line : string) :
  matchAll dateRegex line = match years line with [] => None | ys => Some ys end.
Proof. reflexivity. Qed.

(** One turn of the experience loop, in closed form. *)
Lemma experienceBody_eq (l : string) (v : ExperienceVars) (w : World) :
  experienceBody (Some l) v w =
  if hasKeyword experienceKeywords l then
    Ok (Next {| inExperienceSection := true;
                currentExperience := currentExperience v;
                experiences := experiences v |}) w
  else if inExperienceSection v then
    if hasKeyword experienceStops l then Ok (Break v) w
    else if hasYear l then
      match currentExperience v with
      | Some c =>
          Ok (Next {| inExperienceSection := inExperienceSection v;
                      currentExperience := Some (pendingOf l);
                      experiences := experiences v ++ [finishExperience (uuids w (issued w)) c] |})
             (mkWorld (uuids w) (S (issued w)))
      | None =>
          Ok (Next {| inExperienceSection := inExperienceSection v;
                      currentExperience := Some (pendingOf l);
                      experiences := experiences v |}) w
      end
    else Ok (Next v) w
  else Ok (Next v) w.
Proof.
  unfold experienceBody, method, some, bind, ret. cbv beta.
  change (existsb (fun keyword => includes (toLowerCase l) keyword) experienceKeywords)
    with (hasKeyword experienceKeywords l).
  destruct (hasKeyword experienceKeywords l); [reflexivity|].
  destruct (inExperienceSection v); [|reflexivity].
  rewrite experience_stops.
  destruct (hasKeyword experienceStops l); [reflexivity|].
  rewrite matchAll_years. unfold hasYear, pendingOf.
  destruct (splitOn_head isDigit l) as [t ->].
  destruct (years l) as [|y ys]; [reflexivity|].
  destruct (currentExperience v); reflexivity.
Qed.

Lemma pushCurrent_eq (cur : option PartialExperience.t) (exps : list Experience.t) (w : World) :
  pushCurrent cur exps w
  = Ok (exps ++ numbered finishExperience (uuids w) (issued w) (optList cur))
       (mkWorld (uuids w) (List.length (optList cur) + issued w)).
Proof.
  destruct cur; simpl; [reflexivity|]. unfold ret. now rewrite app_nil_r, world_eta.
Qed.

(** The experience loop followed by the final push, from any loop state. *)
Lemma experience_run (ls : list string) :
  forall v w,
    (x <- runLines experienceBody ls v ;; pushCurrent (currentExperience x) (experiences x)) w
    = let ps := optList (currentExperience v) ++
                map pendingOf
                  (filter hasYear
                     (sectionLines experienceKeywords experienceStops
                        (phaseOf (inExperienceSection v)) ls)) in
      Ok (experiences v ++ numbered finishExperience (uuids w) (issued w) ps)
         (mkWorld (uuids w) (List.length ps + issued w)).
Proof.
  induction ls as [|l rest IH]; intros v w.
  - cbn [runLines sectionLines filter map]. rewrite app_nil_r.
    unfold bind, ret. apply pushCurrent_eq.
  - cbn [runLines sectionLines]. unfold bind at 1 2. rewrite experienceBody_eq.
    unfold bind in IH.
    destruct (hasKeyword experienceKeywords l) eqn:Hh.
    { rewrite IH. cbn [inExperienceSection currentExperience experiences phaseOf].
      destruct (inExperienceSection v); cbn [phaseOf classify]; rewrite Hh; reflexivity. }
    destruct (inExperienceSection v) eqn:Hin; cbn [phaseOf classify]; rewrite Hh.
    2:{ rewrite IH, Hin. reflexivity. }
    destruct (hasKeyword experienceStops l) eqn:Hs.
    { cbn [fst snd app]. rewrite sectionLines_Done. cbn [filter map]. rewrite app_nil_r.
      unfold ret. apply pushCurrent_eq. }
    cbn [fst snd app filter]. destruct (hasYear l) eqn:Hy.
    2:{ rewrite IH, Hin. reflexivity. }
    destruct (currentExperience v) as [c|] eqn:Hc; rewrite IH;
      cbn [inExperienceSection currentExperience experiences phaseOf optList app map
           numbered List.length uuids issued].
    + rewrite <- app_assoc. cbn [app]. f_equal. f_equal. rewrite length_map. cbn. lia.
    + reflexivity.
Qed.

Lemma extractExperience_eq (lines : list string) (fullText : string) (w : World) :
  extractExperience lines fullText w
  = let q := filter hasYear
               (sectionLines experienceKeywords experienceStops BeforeSection lines) in
    Ok (numbered experienceOf (uuids w) (issued w) q)
       (mkWorld (uuids w) (List.length q + issued w)).
Proof.
  unfold extractExperience, bind. rewrite forLoop_lines.
  pose proof (experience_run lines
                {| inExperienceSection := false; currentExperience := None; experiences := [] |} w)
    as H.
  unfold bind in H. rewrite H. cbn [inExperienceSection currentExperience experiences
                                     phaseOf optList app].
  now rewrite numbered_pending, length_map.
Qed.

(** The states of section 4.2 follow the loop: [Done] is the [break], and
    otherwise the state is the flag [inExperienceSection]. *)
Lemma experience_phase (ls : list string) :
  forall v w,
    exists r w',
      scanLines experienceBody ls v w = Ok r w'
      /\ phaseAfter experienceKeywords experienceStops (phaseOf (inExperienceSection v)) ls
         = match r with
           | Break _ => Done
           | Next v' => phaseOf (inExperienceSection v')
           end.
Proof.
  induction ls as [|l rest IH]; intros v w.
  - exists (Next v), w. split; reflexivity.
  - cbn [scanLines phaseAfter]. unfold bind. rewrite experienceBody_eq.
    destruct (hasKeyword experienceKeywords l) eqn:Hh.
    { rewrite (@classify_header experienceKeywords experienceStops _ l Hh). cbn [fst].
      match goal with |- context [scanLines _ _ ?v' ?w'] => destruct (IH v' w') as (r & w1 & E & P) end.
      exists r, w1. split; [exact E|]. rewrite <- P. now destruct (inExperienceSection v). }
    destruct (inExperienceSection v) eqn:Hin; cbn [phaseOf classify]; rewrite Hh.
    2:{ destruct (IH v w) as (r & w1 & E & P). exists r, w1. rewrite Hin in P. now split. }
    destruct (hasKeyword experienceStops l) eqn:Hs.
    { exists (Break v), w. split; [reflexivity|]. apply phaseAfter_Done. }
    cbn [fst].
    destruct (hasYear l); [destruct (currentExperience v)|];
      match goal with |- context [scanLines _ _ ?v' ?w'] => destruct (IH v' w') as (r & w1 & E & P) end;
      exists r, w1; (split; [exact E|]); rewrite <- P; cbn [inExperienceSection];
      now rewrite ?Hin.
Qed.

(** The entries [forEach] appends for one lower-cased line. *)
Lemma skill_forEach (line : string) (terms : list string) :
  forall acc,
    fold_left (skillCallback line) terms acc
    = acc ++ map (fun skill =>
                    {| Skill.name := skill;
                       Skill.level := intermediate;
                       Skill.category :=
                         if includes skill "javascript" || includes skill "python"
                         then "Programming" else "General" |})
                 (filter (fun term => includes line term) terms).
Proof.
  induction terms as [|t r IH]; intros acc; simpl; [now rewrite app_nil_r|].
  rewrite IH. unfold skillCallback.
  destruct (includes line t); simpl; [now rewrite <- app_assoc|reflexivity].
Qed.

Lemma programming_subset :
  forallb (fun skill =>
             Bool.eqb (includes skill "javascript" || includes skill "python")
                      (existsb (String.eqb skill) programmingSubset))
          commonSkills = true.
Proof. vm_compute. reflexivity. Qed.

Lemma skill_forEach_common (l : string) (acc : list Skill.t) :
  fold_left (skillCallback (toLowerCase l)) commonSkills acc = acc ++ skillsOfLine l.
Proof.
  rewrite skill_forEach. f_equal. unfold skillsOfLine. apply map_ext_in.
  intros t Ht. apply filter_In in Ht as [Ht _].
  pose proof programming_subset as H. rewrite forallb_forall in H.
  specialize (H t Ht). apply eqb_prop in H. unfold skillOf. now rewrite H.
Qed.

Lemma skillsBody_eq (l : string) (v : SkillsVars) (w : World) :
  skillsBody (Some l) v w =
  if hasKeyword skillKeywords l then
    Ok (Next {| inSkillsSection := true; skillsAcc := skillsAcc v |}) w
  else if inSkillsSection v then
    if hasKeyword skillStops l then Ok (Break v) w
    else Ok (Next {| inSkillsSection := inSkillsSection v;
                     skillsAcc := skillsAcc v ++ skillsOfLine l |}) w
  else Ok (Next v) w.
Proof.
  unfold skillsBody, method, some, bind, ret. cbv beta.
  change (existsb (fun keyword => includes (toLowerCase l) keyword) skillKeywords)
    with (hasKeyword skillKeywords l).
  destruct (hasKeyword skillKeywords l); [reflexivity|].
  destruct (inSkillsSection v); [|reflexivity].
  rewrite skill_stops.
  destruct (hasKeyword skillStops l); [reflexivity|].
  now rewrite skill_forEach_common.
Qed.

Lemma skills_run (ls : list string) :
  forall v w,
    (x <- runLines skillsBody ls v ;; ret (skillsAcc x)) w
    = Ok (skillsAcc v ++
          flat_map skillsOfLine
            (sectionLines skillKeywords skillStops (phaseOf (inSkillsSection v)) ls)) w.
Proof.
  induction ls as [|l rest IH]; intros v w.
  - cbn. now rewrite app_nil_r.
  - cbn [runLines sectionLines]. unfold bind at 1 2. rewrite skillsBody_eq.
    unfold bind in IH.
    destruct (hasKeyword skillKeywords l) eqn:Hh.
    { rewrite IH. cbn [inSkillsSection skillsAcc phaseOf].
      destruct (inSkillsSection v); cbn [phaseOf classify]; rewrite Hh; reflexivity. }
    destruct (inSkillsSection v) eqn:Hin; cbn [phaseOf classify]; rewrite Hh.
    2:{ rewrite IH, Hin. reflexivity. }
    destruct (hasKeyword skillStops l) eqn:Hs.
    { cbn [fst snd app]. rewrite sectionLines_Done. cbn. now rewrite app_nil_r. }
    rewrite IH. cbn [inSkillsSection skillsAcc phaseOf fst snd app flat_map].
    now rewrite <- app_assoc.
Qed.

Lemma extractSkills_eq (lines : list string) (fullText : string) (w : World) :
  extractSkills lines fullText w
  = Ok (flat_map skillsOfLine (sectionLines skillKeywords skillStops BeforeSection lines)) w.
Proof.
  unfold extractSkills, bind. rewrite forLoop_lines.
  pose proof (skills_run lines {| inSkillsSection := false; skillsAcc := [] |} w) as H.
  unfold bind in H. now rewrite H.
Qed.

Lemma educationBody_eq (l : string) (v : EducationVars) (w : World) :
  educationBody (Some l) v w =
  if hasKeyword educationKeywords l then
    Ok (Next {| inEducationSection := true; educationAcc := educationAcc v |}) w
  else if inEducationSection v then
    if hasKeyword educationStops l then Ok (Break v) w
    else if hasDegree l then
      Ok (Next {| inEducationSection := inEducationSection v;
                  educationAcc := educationAcc v ++ [educationOf (uuids w (issued w)) l] |})
         (mkWorld (uuids w) (S (issued w)))
    else Ok (Next v) w
  else Ok (Next v) w.
Proof.
  unfold educationBody, method, some, bind, ret. cbv beta.
  change (existsb (fun keyword => includes (toLowerCase l) keyword) educationKeywords)
    with (hasKeyword educationKeywords l).
  change (existsb (fun keyword => includes (toLowerCase l) keyword) degreeKeywords)
    with (hasDegree l).
  destruct (hasKeyword educationKeywords l); [reflexivity|].
  destruct (inEducationSection v); [|reflexivity].
  rewrite education_stops.
  destruct (hasKeyword educationStops l); [reflexivity|].
  destruct (hasDegree l); [|reflexivity].
  unfold uuidv4, educationOf. rewrite !optIdx_matchAll, orElse_years, orEmpty_nth.
  reflexivity.
Qed.

Lemma education_run (ls : list string) :
  forall v w,
    (x <- runLines educationBody ls v ;; ret (educationAcc x)) w
    = let q := filter hasDegree
                 (sectionLines educationKeywords educationStops
                    (phaseOf (inEducationSection v)) ls) in
      Ok (educationAcc v ++ numbered educationOf (uuids w) (issued w) q)
         (mkWorld (uuids w) (List.length q + issued w)).
Proof.
  induction ls as [|l rest IH]; intros v w.
  - cbn. now rewrite app_nil_r, world_eta.
  - cbn [runLines sectionLines]. unfold bind at 1 2. rewrite educationBody_eq.
    unfold bind in IH.
    destruct (hasKeyword educationKeywords l) eqn:Hh.
    { rewrite IH. cbn [inEducationSection educationAcc phaseOf].
      destruct (inEducationSection v); cbn [phaseOf classify]; rewrite Hh; reflexivity. }
    destruct (inEducationSection v) eqn:Hin; cbn [phaseOf classify]; rewrite Hh.
    2:{ rewrite IH, Hin. reflexivity. }
    destruct (hasKeyword educationStops l) eqn:Hs.
    { cbn [fst snd app]. rewrite sectionLines_Done. cbn. now rewrite app_nil_r, world_eta. }
    cbn [fst snd app filter]. destruct (hasDegree l) eqn:Hd.
    2:{ rewrite IH, Hin. reflexivity. }
    rewrite IH. cbn [inEducationSection educationAcc phaseOf uuids issued numbered List.length].
    rewrite <- app_assoc. cbn [app]. f_equal. f_equal. lia.
Qed.

Lemma extractEducation_eq (lines : list string) (fullText : string) (w : World) :
  extractEducation lines fullText w
  = let q := filter hasDegree
               (sectionLines educationKeywords educationStops BeforeSection lines) in
    Ok (numbered educationOf (uuids w) (issued w) q)
       (mkWorld (uuids w) (List.length q + issued w)).
Proof.
  unfold extractEducation, bind. rewrite forLoop_lines.
  pose proof (education_run lines {| inEducationSection := false; educationAcc := [] |} w) as H.
  unfold bind in H. now rewrite H.
Qed.

Lemma extractDataFromText_eq (text : string) (w : World) :
  extractDataFromText text w
  = let lines := linesOf text in
    let qe := filter hasYear
                (sectionLines experienceKeywords experienceStops BeforeSection lines) in
    let qd := filter hasDegree
                (sectionLines educationKeywords educationStops BeforeSection lines) in
    Ok {| personal_info := extractPersonalInfo lines text;
          experience := numbered experienceOf (uuids w) (issued w) qe;
          skills := flat_map skillsOfLine
                      (sectionLines skillKeywords skillStops BeforeSection lines);
          education := numbered educationOf (uuids w) (List.length qe + issued w) qd |}
       (mkWorld (uuids w) (List.length qd + (List.length qe + issued w))).
Proof.
  unfold extractDataFromText, bind.
  rewrite extractExperience_eq. cbv beta iota zeta.
  rewrite extractSkills_eq. cbv beta iota.
  rewrite extractEducation_eq. reflexivity.
Qed.

Lemma first_line (ls : list string) :
  orEmpty (nth_error (filter (fun line => 0 <? String.length line) (map trim ls)) 0)
  = firstNonBlank ls.
Proof.
  induction ls as [|l r IH]; simpl; [reflexivity|].
  destruct (0 <? String.length (trim l)); simpl; [apply orEmpty_Some|exact IH].
Qed.

Lemma allChars_weaken (cls P : ascii -> bool) (m : string) :
  (forall c, cls c = true -> P c = true) -> allChars cls m = true -> allChars P m = true.
Proof.
  intros H. induction m as [|c m IH]; simpl; [reflexivity|].
  intros [Hc Hm]%andb_prop. now rewrite (H _ Hc), IH.
Qed.

Lemma lang_allChars (P : ascii -> bool) (r : regex) :
  forall m, classesWithin P r -> lang r m -> allChars P m = true.
Proof.
  induction r as [cls|a IHa b IHb|a IHa b IHb|a IHa|cls lo|]; intros m C L; simpl in *.
  - destruct L as (c & -> & Hc). simpl. now rewrite (C _ Hc).
  - destruct C as [Ca Cb]. destruct L as (m1 & m2 & -> & L1 & L2).
    now rewrite allChars_append, IHa, IHb.
  - destruct C as [Ca Cb]. destruct L; auto.
  - destruct L as [->|L]; auto.
  - destruct L as [_ L]. eapply allChars_weaken; eauto.
  - now subst.
Qed.

Lemma filterChars_all (P : ascii -> bool) (m : string) :
  allChars P m = true -> filterChars P m = m.
Proof.
  induction m as [|c m IH]; simpl; [reflexivity|].
  intros [Hc Hm]%andb_prop. now rewrite Hc, IH.
Qed.

Lemma exactly_within (a : ascii) (P : ascii -> bool) :
  P a = true -> forall c, exactly a c = true -> P c = true.
Proof. unfold exactly. intros H c E. apply Ascii.eqb_eq in E. now subst. Qed.

Lemma phoneSep_kept (c : ascii) : phoneSep c = true -> phoneKeep c = true.
Proof.
  unfold phoneSep, phoneKeep. intros H.
  apply orb_prop in H as [H|H]; [apply orb_prop in H as [H|H]|].
  - apply Ascii.eqb_eq in H. now subst.
  - apply Ascii.eqb_eq in H. now subst.
  - rewrite H. apply orb_true_r.
Qed.

Lemma digit_kept (c : ascii) : isDigit c = true -> phoneKeep c = true.
Proof. unfold phoneKeep. now intros ->. Qed.

Lemma phone_classes : classesWithin phoneKeep phoneRegex.
Proof.
  unfold phoneRegex, digits4, digits3. cbn [classesWithin].
  repeat split;
    first [ exact phoneSep_kept | exact digit_kept | apply exactly_within; reflexivity ].
Qed.

Lemma phone_unfiltered (fullText : string) :
  filterChars phoneKeep (orEmpty (matchFirst phoneRegex fullText))
  = orEmpty (matchFirst phoneRegex fullText).
Proof.
  destruct (matchFirst phoneRegex fullText) as [m|] eqn:H; [|reflexivity].
  rewrite orEmpty_Some. apply filterChars_all.
  apply lang_allChars with (r := phoneRegex); [exact phone_classes|].
  eapply matchFirst_sound; eauto.
Qed.

Lemma erase_experience (u : nat -> string) (ls : list string) :
  forall n,
    map (fun e => Experience.mk "" (Experience.company e) (Experience.position e)
                    (Experience.startDate e) (Experience.endDate e)
                    (Experience.description e) (Experience.achievements e))
        (numbered experienceOf u n ls)
    = map (experienceOf "") ls.
Proof. induction ls as [|l r IH]; intros n; simpl; [|rewrite IH]; reflexivity. Qed.

Lemma erase_education (u : nat -> string) (ls : list string) :
  forall n,
    map (fun e => Education.mk "" (Education.institution e) (Education.degree e)
                    (Education.field e) (Education.startDate e) (Education.endDate e)
                    (Education.gpa e))
        (numbered educationOf u n ls)
    = map (educationOf "") ls.
Proof. induction ls as [|l r IH]; intros n; simpl; [|rewrite IH]; reflexivity. Qed.

Lemma sectionLines_header (headers stops : list string) (pre post : list string) (h h' : string) :
  hasKeyword headers h = true -> hasKeyword headers h' = true ->
  sectionLines headers stops BeforeSection (pre ++ h :: post)
  = sectionLines headers stops BeforeSection (pre ++ h' :: post).
Proof.
  intros H H'. rewrite !sectionLines_app. f_equal.
  cbn [sectionLines].
  now rewrite (@classify_header headers stops _ h H), (@classify_header headers stops _ h' H').
Qed.

(** The data lines are the plain lines among those reached inside the
    section. *)
Lemma sectionLines_reached (headers stops : list string) (ls : list string) :
  forall ph,
    sectionLines headers stops ph ls
    = filter (plainLine headers stops) (reachedInside headers stops ph ls).
Proof.
  induction ls as [|l rest IH]; intros ph; [reflexivity|].
  cbn [sectionLines reachedInside]. rewrite filter_app, IH. f_equal.
  unfold plainLine. destruct ph; cbn [classify filter].
  - now destruct (hasKeyword headers l).
  - destruct (hasKeyword headers l); [reflexivity|].
    now destruct (hasKeyword stops l).
  - reflexivity.
Qed.

(** A line is reached inside the section exactly when the lines before it
    leave the scan in the state [InsideSection]. *)
Lemma reachedInside_app (headers stops : list string) (pre : list string) :
  forall ph l post,
    reachedInside headers stops ph (pre ++ l :: post)
    = reachedInside headers stops ph pre
      ++ (match phaseAfter headers stops ph pre with InsideSection => [l] | _ => [] end)
      ++ reachedInside headers stops
           (phaseAfter headers stops ph (pre ++ [l])) post.
Proof.
  induction pre as [|x pre IH]; intros ph l post.
  - reflexivity.
  - cbn [app reachedInside phaseAfter]. now rewrite IH, <- app_assoc.
Qed.

(** Past a terminating line nothing is data. *)
Lemma sectionLines_stop (headers stops : list string) (pre post : list string) (l : string) :
  phaseAfter headers stops BeforeSection pre = InsideSection ->
  hasKeyword headers l = false -> hasKeyword stops l = true ->
  sectionLines headers stops BeforeSection (pre ++ l :: post)
  = sectionLines headers stops BeforeSection pre.
Proof.
  intros Hp Hh Hs. rewrite sectionLines_app, Hp. cbn [sectionLines classify].
  rewrite Hh, Hs. cbn [fst snd app]. now rewrite sectionLines_Done, app_nil_r.
Qed.

(** Without a header line a scan never enters its section. *)
Lemma sectionLines_no_header (headers stops : list string) (ls : list string) :
  (forall l, In l ls -> hasKeyword headers l = false) ->
  sectionLines headers stops BeforeSection ls = [].
Proof.
  induction ls as [|l r IH]; intros H; simpl; [reflexivity|].
  rewrite (H l) by now left. simpl. apply IH. intros l' Hl. apply H. now right.
Qed.

(* ================================================================== *)
(** ** parseResumeFile: error reporting *)
(* ================================================================== *)

Section ParseErrors.

Variable pdf : Buffer -> M PdfData.
Variable mammoth : Buffer -> M RawText.

(** Whatever is thrown inside the [try] block, the one handler replaces it
    with the same error. *)
Lemma parseResumeFile_throws (buffer : Buffer) (mimetype : string) (w : World) :
  forall e w', parseResumeFile pdf mammoth buffer mimetype w = Throw e w' ->
               e = Error "Failed to parse resume file".
Proof.
  intros e w'. unfold parseResumeFile, tryCatch, throw.
  match goal with |- context [match ?b with _ => _ end] => destruct b end;
    [discriminate | now intros [= <- _]].
Qed.

Lemma parseResumeFile_unsupported (buffer : Buffer) (mimetype : string) (w : World) :
  supported mimetype = false ->
  parseResumeFile pdf mammoth buffer mimetype w
  = Throw (Error "Failed to parse resume file") w.
Proof.
  unfold supported, parseResumeFile, tryCatch, throw.
  intros H. apply orb_false_elim in H as [H H3]. apply orb_false_elim in H as [H1 H2].
  now rewrite H1, H2, H3.
Qed.

Lemma parseResumeFile_pdf_rejected (buffer : Buffer) (w w' : World) (e : exn) :
  pdf buffer w = Throw e w' ->
  parseResumeFile pdf mammoth buffer "application/pdf" w
  = Throw (Error "Failed to parse resume file") w'.
Proof.
  intros H. unfold parseResumeFile, tryCatch, throw, bind. simpl. now rewrite H.
Qed.

End ParseErrors.

(** C1 (code departs from the claim). The claim asks for an unsupported
    media type to fail with an error of its own, distinguishable from the one
    reported when a decoder rejects the buffer. In the code the
    [throw new Error('Unsupported file type')] sits inside the [try] block,
    so the handler replaces it: for the media type "text/plain" and for a
    PDF whose decoder rejects, [parseResumeFile] fails with the very same
    error, [Error "Failed to parse resume file"]. *)
Theorem C1_unsupported_type_reported_as_parse_failure :
  forall (pdf : Buffer -> M PdfData) (mammoth : Buffer -> M RawText)
         (buffer : Buffer) (w : World),
    parseResumeFile pdf mammoth buffer "text/plain" w
    = Throw (Error "Failed to parse resume file") w
    /\ parseResumeFile pdfRejects mammoth buffer "application/pdf" w
       = Throw (Error "Failed to parse resume file") w.
Proof.
  intros pdf mammoth buffer w. split.
  - now apply parseResumeFile_unsupported.
  - now apply parseResumeFile_pdf_rejected with (e := Error "PDF parsing failed").
Qed.

(* ================================================================== *)
(** ** The extractors *)
(* ================================================================== *)

(** C6. On the empty text [extractDataFromText] returns the record whose
    personal-info strings are all empty and whose experience, skills and
    education lists are all empty (and present). *)
Theorem C6_empty_text :
  forall w : World,
    extractDataFromText "" w
    = Ok {| personal_info :=
              {| name := ""; email := ""; phone := ""; address := "";
                 linkedin := Some ""; website := Some "" |};
            experience := [];
            skills := [];
            education := [] |} w.
Proof. intros w. reflexivity. Qed.

(** C3 (code departs from the claim). The education extractor returns one
    entry per line of the education section that contains a degree keyword,
    with startDate the first year token and endDate the second one (or the
    first when there is only one); but the degree it stores is the
    lower-cased line, not the raw line the claim asks for, because the source
    stores [line], which is [lines[i].toLowerCase()]. Inside an "Education"
    section the line "Bachelor of Computer Science 2016-2020" gives exactly
    one entry, dated "2016" to "2020", whose degree is
    "bachelor of computer science 2016-2020". *)
Theorem C3_degree_is_lower_cased :
  (forall (lines : list string) (fullText : string) (w : World),
     let q := filter hasDegree
                (sectionLines educationKeywords educationStops BeforeSection lines) in
     extractEducation lines fullText w
     = Ok (numbered educationOf (uuids w) (issued w) q)
          (mkWorld (uuids w) (List.length q + issued w)))
  /\ (forall (fullText : string) (w : World),
        extractEducation ["Education"; "Bachelor of Computer Science 2016-2020"] fullText w
        = Ok [ {| Education.id := uuids w (issued w);
                  Education.institution := "";
                  Education.degree := "bachelor of computer science 2016-2020";
                  Education.field := "";
                  Education.startDate := "2016";
                  Education.endDate := "2020";
                  Education.gpa := None |} ]
             (mkWorld (uuids w) (S (issued w)))).
Proof.
  split.
  - intros. apply extractEducation_eq.
  - intros fullText w. reflexivity.
Qed.

(** C4 (amended). The experience extractor returns one entry per
    qualifying line (a line with at least one year token) among the lines
    that the scan reaches inside the experience section and that contain
    neither a header keyword of the section nor a stop keyword, and no other
    entry; the entries are in the order of these lines, with identifiers
    drawn in that order: company is the trimmed text before the first digit,
    startDate the first year token, endDate the second one or null, position
    and description empty, no achievements. Two qualifying lines with two
    year tokens each give exactly two entries in input order. *)
Theorem C4_experience_entries :
  (forall (lines : list string) (fullText : string) (w : World),
     let q := filter hasYear
                (filter (plainLine experienceKeywords experienceStops)
                   (reachedInside experienceKeywords experienceStops BeforeSection lines)) in
     extractExperience lines fullText w
     = Ok (numbered experienceOf (uuids w) (issued w) q)
          (mkWorld (uuids w) (List.length q + issued w)))
  /\ (forall (fullText : string) (w : World),
        extractExperience
          ["Experience";
           "Software Engineer at Tech Corp 2020-2023";
           "Senior Developer at StartupXYZ 2018-2020"] fullText w
        = Ok [ Experience.mk (uuids w (issued w)) "Software Engineer at Tech Corp" ""
                 "2020" (Some "2023") "" [];
               Experience.mk (uuids w (S (issued w))) "Senior Developer at StartupXYZ" ""
                 "2018" (Some "2020") "" [] ]
             (mkWorld (uuids w) (S (S (issued w))))).
Proof.
  split.
  - intros lines fullText w. rewrite <- sectionLines_reached. apply extractExperience_eq.
  - intros fullText w. reflexivity.
Qed.

(** C4, as stated, fails: a qualifying line reached inside the experience
    section gives no entry when it contains a header keyword of the section
    ("Work Experience at Globex 2016-2018" is skipped) or a stop keyword
    ("Skills trainer at Initech 2015-2017" ends the scan). *)
Lemma C4_counterexample :
  (reachedInside experienceKeywords experienceStops BeforeSection
     ["Experience"; "Acme Corp 2019-2021"; "Work Experience at Globex 2016-2018"]
   = ["Acme Corp 2019-2021"; "Work Experience at Globex 2016-2018"]
   /\ hasYear "Work Experience at Globex 2016-2018" = true
   /\ returned (extractExperience
                  ["Experience"; "Acme Corp 2019-2021"; "Work Experience at Globex 2016-2018"]
                  "" sampleWorld)
      = Some [ Experience.mk "uuid-0" "Acme Corp" "" "2019" (Some "2021") "" [] ])
  /\ (reachedInside experienceKeywords experienceStops BeforeSection
        ["Experience"; "Acme Corp 2019-2021"; "Skills trainer at Initech 2015-2017"]
      = ["Acme Corp 2019-2021"; "Skills trainer at Initech 2015-2017"]
      /\ hasYear "Skills trainer at Initech 2015-2017" = true
      /\ returned (extractExperience
                     ["Experience"; "Acme Corp 2019-2021";
                      "Skills trainer at Initech 2015-2017"]
                     "" sampleWorld)
         = Some [ Experience.mk "uuid-0" "Acme Corp" "" "2019" (Some "2021") "" [] ]).
Proof. repeat split; reflexivity. Qed.

(** C9 (amended). The skills extractor returns, for the lines that the scan
    reaches inside the skills section and that contain neither a header
    keyword of the section nor a stop keyword, in order, one entry per
    vocabulary term contained in the lower-cased line, in vocabulary order:
    the term as name, level "intermediate", category "Programming" for the
    terms of the programming subset and "General" otherwise; and no other
    entry. Nothing is deduplicated: a term on two lines gives two entries.
    The line "JavaScript, Python, React" gives entries named "javascript"
    and "python" (and "java", "react"), all "intermediate". *)
Theorem C9_skill_entries :
  (forall (lines : list string) (fullText : string) (w : World),
     extractSkills lines fullText w
     = Ok (flat_map skillsOfLine
             (filter (plainLine skillKeywords skillStops)
                (reachedInside skillKeywords skillStops BeforeSection lines))) w)
  /\ (forall (fullText : string) (w : World),
        extractSkills ["Skills"; "JavaScript, Python, React"] fullText w
        = Ok [ Skill.mk "javascript" intermediate "Programming";
               Skill.mk "python" intermediate "Programming";
               Skill.mk "java" intermediate "General";
               Skill.mk "react" intermediate "General" ] w)
  /\ (forall (fullText : string) (w : World),
        extractSkills ["Skills"; "Python"; "python 3"] fullText w
        = Ok [ Skill.mk "python" intermediate "Programming";
               Skill.mk "python" intermediate "Programming" ] w).
Proof.
  split; [|split].
  - intros lines fullText w. rewrite <- sectionLines_reached. apply extractSkills_eq.
  - intros fullText w. reflexivity.
  - intros fullText w. reflexivity.
Qed.

(** C9, as stated, fails: a line reached inside the skills section gives no
    entry for the vocabulary terms it contains when it also contains a header
    keyword of the section ("Soft skills: leadership, communication" is
    skipped) or a stop keyword ("Python, 5 years experience" ends the
    scan). *)
Lemma C9_counterexample :
  (reachedInside skillKeywords skillStops BeforeSection
     ["Skills"; "Python"; "Soft skills: leadership, communication"]
   = ["Python"; "Soft skills: leadership, communication"]
   /\ skillsOfLine "Soft skills: leadership, communication"
      = [ Skill.mk "leadership" intermediate "General";
          Skill.mk "communication" intermediate "General" ]
   /\ returned (extractSkills ["Skills"; "Python"; "Soft skills: leadership, communication"]
                  "" sampleWorld)
      = Some [ Skill.mk "python" intermediate "Programming" ])
  /\ (reachedInside skillKeywords skillStops BeforeSection
        ["Skills"; "Python, 5 years experience"]
      = ["Python, 5 years experience"]
      /\ skillsOfLine "Python, 5 years experience"
         = [ Skill.mk "python" intermediate "Programming" ]
      /\ returned (extractSkills ["Skills"; "Python, 5 years experience"] "" sampleWorld)
         = Some []).
Proof. repeat split; reflexivity. Qed.

(** C2 (amended). Once the experience scan is inside its section, a line
    that contains "education", "skills" or "projects" and no header keyword
    of the experience section itself ends the scan: the loop body breaks, and
    neither that line nor any later line contributes an entry, whatever year
    tokens they contain. Being inside the section is stated on the loop
    (the lines before have been scanned without a break and have left
    [inExperienceSection] set) and on the states of section 4.2. *)
Theorem C2_terminator_ends_scan :
  forall l : string,
    hasKeyword experienceKeywords l = false ->
    hasKeyword experienceStops l = true ->
    (forall (v : ExperienceVars) (w : World),
       inExperienceSection v = true ->
       experienceBody (Some l) v w = Ok (Break v) w)
    /\ (forall (pre post : list string) (fullText : string) (w w' : World) (v : ExperienceVars),
          scanLines experienceBody pre experienceStart w = Ok (Next v) w' ->
          inExperienceSection v = true ->
          extractExperience (pre ++ l :: post) fullText w = extractExperience pre fullText w)
    /\ (forall (pre post : list string) (fullText : string) (w : World),
          phaseAfter experienceKeywords experienceStops BeforeSection pre = InsideSection ->
          extractExperience (pre ++ l :: post) fullText w = extractExperience pre fullText w).
Proof.
  intros l Hh Hs.
  assert (Stop : forall pre post fullText w,
             phaseAfter experienceKeywords experienceStops BeforeSection pre = InsideSection ->
             extractExperience (pre ++ l :: post) fullText w = extractExperience pre fullText w).
  { intros pre post fullText w Hp. rewrite !extractExperience_eq. cbv zeta.
    now rewrite (@sectionLines_stop experienceKeywords experienceStops pre post l Hp Hh Hs). }
  split; [|split].
  - intros v w Hin. now rewrite experienceBody_eq, Hh, Hin, Hs.
  - intros pre post fullText w w' v Hscan Hin. apply Stop.
    destruct (experience_phase pre experienceStart w) as (r & w1 & E & P).
    rewrite Hscan in E. injection E as <- _. cbn [experienceStart inExperienceSection phaseOf] in P.
    now rewrite P, Hin.
  - exact Stop.
Qed.

Lemma C2_terminator_ends_scan_witness :
  experienceBody (Some "Education")
    {| inExperienceSection := true; currentExperience := None; experiences := [] |}
    sampleWorld
  = Ok (Break {| inExperienceSection := true; currentExperience := None; experiences := [] |})
       sampleWorld
  /\ extractExperience
       (["Experience"; "Acme Corp 2019-2021"] ++ "Education" :: ["State University 2012-2016"])
       "" sampleWorld
     = extractExperience ["Experience"; "Acme Corp 2019-2021"] "" sampleWorld.
Proof.
  destruct (C2_terminator_ends_scan "Education" eq_refl eq_refl) as (Hbody & Hloop & Hphase).
  split.
  - apply Hbody. reflexivity.
  - eapply Hloop.
    + vm_compute. reflexivity.
    + reflexivity.
Defined.

(** C2, as stated, fails: inside the experience section the line
    "Education and Experience" contains the keyword "education", yet the
    scan goes on and the line after it yields an entry. *)
Lemma C2_counterexample :
  phaseAfter experienceKeywords experienceStops BeforeSection
    ["Experience"; "Acme Corp 2019-2021"] = InsideSection
  /\ includes (toLowerCase "Education and Experience") "education" = true
  /\ returned (extractExperience ["Experience"; "Acme Corp 2019-2021"] "" sampleWorld)
     = Some [ Experience.mk "uuid-0" "Acme Corp" "" "2019" (Some "2021") "" [] ]
  /\ returned (extractExperience
                 (["Experience"; "Acme Corp 2019-2021"]
                    ++ "Education and Experience" :: ["Globex 2016-2018"])
                 "" sampleWorld)
     = Some [ Experience.mk "uuid-0" "Acme Corp" "" "2019" (Some "2021") "" [];
              Experience.mk "uuid-1" "Globex" "" "2016" (Some "2018") "" [] ]
  /\ extractExperience
       (["Experience"; "Acme Corp 2019-2021"]
          ++ "Education and Experience" :: ["Globex 2016-2018"])
       "" sampleWorld
     <> extractExperience ["Experience"; "Acme Corp 2019-2021"] "" sampleWorld.
Proof.
  repeat split; try reflexivity.
  vm_compute. discriminate.
Qed.

(** C10. In each of the three scans the header test comes first on every
    line: a line containing a header keyword of the target section makes
    the loop body continue with the section flag set and everything else
    unchanged, whatever the flag was and whatever else the line contains (a
    stop keyword, year tokens, vocabulary terms, a degree keyword); so for
    the whole extractor such a line counts exactly like a bare header. *)
Theorem C10_header_test_first :
  forall h : string,
    (hasKeyword experienceKeywords h = true ->
       (forall v w,
          experienceBody (Some h) v w
          = Ok (Next {| inExperienceSection := true;
                        currentExperience := currentExperience v;
                        experiences := experiences v |}) w)
       /\ (forall pre post fullText w,
             extractExperience (pre ++ h :: post) fullText w
             = extractExperience (pre ++ "experience" :: post) fullText w))
    /\ (hasKeyword skillKeywords h = true ->
          (forall v w,
             skillsBody (Some h) v w
             = Ok (Next {| inSkillsSection := true; skillsAcc := skillsAcc v |}) w)
          /\ (forall pre post fullText w,
                extractSkills (pre ++ h :: post) fullText w
                = extractSkills (pre ++ "skills" :: post) fullText w))
    /\ (hasKeyword educationKeywords h = true ->
          (forall v w,
             educationBody (Some h) v w
             = Ok (Next {| inEducationSection := true; educationAcc := educationAcc v |}) w)
          /\ (forall pre post fullText w,
                extractEducation (pre ++ h :: post) fullText w
                = extractEducation (pre ++ "education" :: post) fullText w)).
Proof.
  intros h. repeat split.
  - intros v w. now rewrite experienceBody_eq, H.
  - intros pre post fullText w. rewrite !extractExperience_eq. cbv zeta.
    now rewrite (@sectionLines_header experienceKeywords experienceStops pre post
                   h "experience" H eq_refl).
  - intros v w. now rewrite skillsBody_eq, H.
  - intros pre post fullText w. rewrite !extractSkills_eq.
    now rewrite (@sectionLines_header skillKeywords skillStops pre post
                   h "skills" H eq_refl).
  - intros v w. now rewrite educationBody_eq, H.
  - intros pre post fullText w. rewrite !extractEducation_eq. cbv zeta.
    now rewrite (@sectionLines_header educationKeywords educationStops pre post
                   h "education" H eq_refl).
Qed.

Lemma C10_header_test_first_witness :
  (forall v w,
     experienceBody (Some "Experience, Skills and Education") v w
     = Ok (Next {| inExperienceSection := true;
                   currentExperience := currentExperience v;
                   experiences := experiences v |}) w)
  /\ (forall v w,
        skillsBody (Some "Experience, Skills and Education") v w
        = Ok (Next {| inSkillsSection := true; skillsAcc := skillsAcc v |}) w)
  /\ (forall v w,
        educationBody (Some "Experience, Skills and Education") v w
        = Ok (Next {| inEducationSection := true; educationAcc := educationAcc v |}) w).
Proof.
  pose proof (C10_header_test_first "Experience, Skills and Education") as (He & Hs & Hd).
  split; [|split].
  - apply He. reflexivity.
  - apply Hs. reflexivity.
  - apply Hd. reflexivity.
Defined.

(** C5 (amended). [extractDataFromText] always returns, and its personal
    info is: name, the first non-blank line with every character other than
    a word character (letter, digit or underscore) or white space removed,
    and the result trimmed; email, phone and linkedin, the leftmost match of
    the respective regular expression in the whole text, or the empty string
    when there is none; address and website empty. *)
Theorem C5_personal_info :
  forall (text : string) (w : World),
    exists d w',
      extractDataFromText text w = Ok d w'
      /\ name (personal_info d) = trim (filterChars nameKeep (firstLine text))
      /\ email (personal_info d)
         = match matchFirst emailRegex text with Some m => m | None => "" end
      /\ phone (personal_info d)
         = match matchFirst phoneRegex text with Some m => m | None => "" end
      /\ linkedin (personal_info d)
         = Some match matchFirst linkedinRegex text with Some m => m | None => "" end
      /\ address (personal_info d) = ""
      /\ website (personal_info d) = Some "".
Proof.
  intros text w. rewrite extractDataFromText_eq. cbv zeta.
  eexists; eexists; split; [reflexivity|].
  cbn [personal_info]. unfold extractPersonalInfo.
  cbn [name email phone linkedin address website].
  rewrite phone_unfiltered. unfold linesOf, firstLine. rewrite first_line.
  repeat split.
  - destruct (matchFirst emailRegex text); [apply orEmpty_Some|reflexivity].
  - destruct (matchFirst phoneRegex text); [apply orEmpty_Some|reflexivity].
  - destruct (matchFirst linkedinRegex text); [now rewrite orEmpty_Some|reflexivity].
Qed.

(** C5, as stated, fails on the name: an underscore is neither alphanumeric
    nor white space and is kept ("john_doe"); the white space that the
    removal leaves at an end is trimmed ("- Jane" gives "Jane"); and a letter
    outside A-Z and a-z is alphanumeric and is removed ("Jos" followed by
    U+00E9, e with acute accent, gives "Jos"). *)
Lemma C5_counterexample :
  (option_map (fun d => name (personal_info d))
     (returned (extractDataFromText "john_doe" sampleWorld)) = Some "john_doe"
   /\ stripNonAlphanumeric (firstLine "john_doe") = "johndoe")
  /\ (option_map (fun d => name (personal_info d))
        (returned (extractDataFromText "- Jane" sampleWorld)) = Some "Jane"
      /\ stripNonAlphanumeric (firstLine "- Jane") = " Jane")
  /\ (option_map (fun d => name (personal_info d))
        (returned (extractDataFromText (String.append "Jos" (String (ascii_of_nat 233) ""))
                     sampleWorld)) = Some "Jos"
      /\ stripNonAlphanumeric (firstLine (String.append "Jos" (String (ascii_of_nat 233) "")))
         = String.append "Jos" (String (ascii_of_nat 233) "")).
Proof. repeat split; reflexivity. Qed.

(** The regular expressions see the whole text: a phone number may run over
    line breaks, which are white space. *)
Example phone_across_lines :
  option_map (fun d => phone (personal_info d))
    (returned (extractDataFromText ("Jane" ++ LF ++ "555" ++ LF ++ "123" ++ LF ++ "4567")%string
                 sampleWorld))
  = Some ("555" ++ LF ++ "123" ++ LF ++ "4567")%string.
Proof. reflexivity. Qed.

(** C7. For every text [extractDataFromText] returns a record and throws
    nothing; in it the three lists are lists and the strings are strings by
    construction, and the two optional strings of the personal info
    (linkedin, website) are present. *)
Theorem C7_extraction_total :
  forall (text : string) (w : World),
    exists d w',
      extractDataFromText text w = Ok d w'
      /\ (forall e w'', extractDataFromText text w <> Throw e w'')
      /\ (exists l, linkedin (personal_info d) = Some l)
      /\ (exists s, website (personal_info d) = Some s).
Proof.
  intros text w. rewrite extractDataFromText_eq. cbv zeta.
  eexists; eexists; split; [reflexivity|].
  split; [discriminate|]. cbn. eauto.
Qed.

(** Without a header line the three lists are empty. *)
Lemma no_header_no_entries (text : string) (w : World) :
  (forall l, In l (linesOf text) ->
             hasKeyword (experienceKeywords ++ skillKeywords ++ educationKeywords) l = false) ->
  exists d w',
    extractDataFromText text w = Ok d w'
    /\ experience d = [] /\ skills d = [] /\ education d = [].
Proof.
  intros H. rewrite extractDataFromText_eq. cbv zeta.
  assert (He : forall l, In l (linesOf text) -> hasKeyword experienceKeywords l = false).
  { intros l Hl. specialize (H l Hl). unfold hasKeyword in *.
    rewrite existsb_app in H. now apply orb_false_elim in H. }
  assert (Hs : forall l, In l (linesOf text) -> hasKeyword skillKeywords l = false).
  { intros l Hl. specialize (H l Hl). unfold hasKeyword in *.
    rewrite !existsb_app in H. apply orb_false_elim in H as [_ H].
    now apply orb_false_elim in H. }
  assert (Hd : forall l, In l (linesOf text) -> hasKeyword educationKeywords l = false).
  { intros l Hl. specialize (H l Hl). unfold hasKeyword in *.
    rewrite !existsb_app in H. apply orb_false_elim in H as [_ H].
    now apply orb_false_elim in H. }
  eexists; eexists; split; [reflexivity|]. cbn [experience skills education].
  rewrite (sectionLines_no_header _ experienceStops _ He),
          (sectionLines_no_header _ skillStops _ Hs),
          (sectionLines_no_header _ educationStops _ Hd).
  auto.
Qed.

(** C8. Two runs of [extractDataFromText] on the same text, with any two
    streams of generated identifiers, return records that are equal once
    the identifiers of the entries are erased. *)
Theorem C8_deterministic_modulo_ids :
  forall (text : string) (w1 w2 : World),
    exists d1 d2 w1' w2',
      extractDataFromText text w1 = Ok d1 w1'
      /\ extractDataFromText text w2 = Ok d2 w2'
      /\ eraseIds d1 = eraseIds d2.
Proof.
  intros text w1 w2. rewrite !extractDataFromText_eq. cbv zeta.
  do 4 eexists. split; [reflexivity|]. split; [reflexivity|].
  unfold eraseIds. cbn [personal_info experience skills education].
  now rewrite !erase_experience, !erase_education.
Qed.

(** The identifiers do differ between runs when the streams do. *)
Example ids_differ :
  returned (extractExperience ["Experience"; "Acme 2020"] "" (mkWorld (fun _ => "a") 0))
  <> returned (extractExperience ["Experience"; "Acme 2020"] "" (mkWorld (fun _ => "b") 0)).
Proof. vm_compute. discriminate. Qed.

(** The first extraction test of the repository's suite ("extracts basic
    personal information") on the model. *)
Example suite_basic_personal_information :
  option_map personal_info
    (returned
       (extractDataFromText
          (LF ++ "        John Doe" ++ LF
              ++ "        john.doe@example.com" ++ LF
              ++ "        (555) 123-4567" ++ LF
              ++ "        linkedin.com/in/johndoe" ++ LF
              ++ "        " ++ LF
              ++ "        Experience" ++ LF
              ++ "        Software Engineer at Tech Corp" ++ LF
              ++ "        2020-2023" ++ LF
              ++ "        Developed web applications" ++ LF
              ++ "        " ++ LF
              ++ "        Skills" ++ LF
              ++ "        JavaScript, Python, React" ++ LF
              ++ "        " ++ LF
              ++ "        Education" ++ LF
              ++ "        Bachelor of Computer Science" ++ LF
              ++ "        University of Technology" ++ LF
              ++ "        2016-2020" ++ LF
              ++ "      ")%string
          sampleWorld))
  = Some {| name := "John Doe";
            email := "john.doe@example.com";
            phone := "(555) 123-4567";
            address := "";
            linkedin := Some "linkedin.com/in/johndoe";
            website := Some "" |}.
Proof. vm_compute. reflexivity. Qed.

(* ================================================================== *)
(** ** Further lemmas on strings *)
(* ================================================================== *)

Lemma prefix_iff (sub s : string) :
  prefix sub s = true <-> exists b, s = (sub ++ b)%string.
Proof.
  revert s. induction sub as [|c sub IH]; intros s.
  - split; [intros _; now exists s | intros _; now destruct s].
  - destruct s as [|d s]; cbn [prefix append].
    { split; [discriminate | intros [b Hb]; discriminate]. }
    destruct (ascii_dec c d) as [->|Hne].
    + rewrite IH. split; intros [b Hb]; exists b; congruence.
    + split; [discriminate | intros [b Hb]; congruence].
Qed.

Lemma includes_iff (s sub : string) :
  includes s sub = true <-> exists a b, s = (a ++ sub ++ b)%string.
Proof.
  induction s as [|c s IH].
  - cbn [includes]. rewrite orb_false_r, prefix_iff. split.
    + intros [b Hb]. now exists "", b.
    + intros (a & b & H). destruct a; [now exists b | discriminate].
  - cbn [includes]. rewrite orb_true_iff, prefix_iff, IH. split.
    + intros [[b Hb] | (a & b & H)].
      * now exists "", b.
      * exists (String c a), b. simpl. now rewrite H.
    + intros (a & b & H). destruct a as [|d a].
      * left. now exists b.
      * right. injection H as _ H. now exists a, b.
Qed.

Lemma append_empty_right (s : string) : (s ++ "")%string = s.
Proof. induction s; simpl; congruence. Qed.

Lemma includes_append (a sub b : string) : includes (a ++ sub ++ b) sub = true.
Proof. apply includes_iff. now exists a, b. Qed.

(** Containment is transitive. *)
Lemma includes_trans (s mid sub : string) :
  includes s mid = true -> includes mid sub = true -> includes s sub = true.
Proof.
  rewrite !includes_iff. intros (a & b & ->) (a' & b' & ->).
  exists (a ++ a')%string, (b' ++ b)%string. now rewrite !append_assoc.
Qed.

Lemma lowerChar_idem (c : ascii) : lowerChar (lowerChar c) = lowerChar c.
Proof. destruct c as [[] [] [] [] [] [] [] []]; reflexivity. Qed.

Lemma toLowerCase_idem (s : string) : toLowerCase (toLowerCase s) = toLowerCase s.
Proof. induction s; simpl; [|rewrite lowerChar_idem, IHs]; reflexivity. Qed.

Lemma toLowerCase_append (a b : string) :
  toLowerCase (a ++ b) = (toLowerCase a ++ toLowerCase b)%string.
Proof. induction a; simpl; [|rewrite IHa]; reflexivity. Qed.

Lemma trimEnd_cons (c : ascii) (r : string) :
  trimEnd (String c r)
  = match trimEnd r with
    | EmptyString => if isSpace c then EmptyString else String c EmptyString
    | r' => String c r'
    end.
Proof. reflexivity. Qed.

Lemma trimEnd_idem (s : string) : trimEnd (trimEnd s) = trimEnd s.
Proof.
  induction s as [|c r IH]; [reflexivity|]. rewrite trimEnd_cons.
  destruct (trimEnd r) as [|d r'] eqn:E.
  - destruct (isSpace c) eqn:Hc; [reflexivity|]. rewrite trimEnd_cons. cbn [trimEnd].
    now rewrite Hc.
  - rewrite trimEnd_cons, IH. reflexivity.
Qed.

Lemma trimStart_head (s : string) : headNotSpace (trimStart s) = true.
Proof.
  induction s as [|c r IH]; [reflexivity|]. cbn [trimStart].
  destruct (isSpace c) eqn:Hc; [exact IH|]. cbn. now rewrite Hc.
Qed.

Lemma trimEnd_head (s : string) : headNotSpace s = true -> headNotSpace (trimEnd s) = true.
Proof.
  destruct s as [|c r]; [reflexivity|]. intros Hc. cbn [headNotSpace] in Hc.
  rewrite trimEnd_cons. destruct (trimEnd r); [|exact Hc].
  destruct (isSpace c) eqn:E; [reflexivity|]. cbn. now rewrite E.
Qed.

Lemma trimStart_fixed (s : string) : headNotSpace s = true -> trimStart s = s.
Proof.
  destruct s as [|c r]; [reflexivity|]. cbn. now destruct (isSpace c).
Qed.

Lemma trim_head (s : string) : headNotSpace (trim s) = true.
Proof. apply trimEnd_head, trimStart_head. Qed.

Lemma trim_idem (s : string) : trim (trim s) = trim s.
Proof.
  unfold trim at 1. rewrite (trimStart_fixed (trim s)) by apply trim_head.
  unfold trim. apply trimEnd_idem.
Qed.

Lemma allChars_trimStart (P : ascii -> bool) (s : string) :
  allChars P s = true -> allChars P (trimStart s) = true.
Proof.
  induction s as [|c r IH]; [reflexivity|]. cbn [trimStart]. intros H.
  destruct (isSpace c); [|exact H]. cbn in H. apply andb_prop in H as [_ H]. auto.
Qed.

Lemma allChars_trimEnd (P : ascii -> bool) (s : string) :
  allChars P s = true -> allChars P (trimEnd s) = true.
Proof.
  induction s as [|c r IH]; [reflexivity|]. cbn [allChars trimEnd].
  intros [Hc Hr]%andb_prop. specialize (IH Hr).
  destruct (trimEnd r).
  - destruct (isSpace c); cbn [allChars]; [reflexivity|now rewrite Hc].
  - cbn [allChars] in *. now rewrite Hc, IH.
Qed.

Lemma allChars_trim (P : ascii -> bool) (s : string) :
  allChars P s = true -> allChars P (trim s) = true.
Proof. intros H. now apply allChars_trimEnd, allChars_trimStart. Qed.

Lemma allChars_filterChars (P : ascii -> bool) (s : string) :
  allChars P (filterChars P s) = true.
Proof.
  induction s as [|c r IH]; [reflexivity|]. cbn [filterChars].
  destruct (P c) eqn:Hc; [cbn; now rewrite Hc|exact IH].
Qed.

Lemma allChars_beforeFirst (cls : ascii -> bool) (s : string) :
  allChars (fun c => negb (cls c)) (beforeFirst cls s) = true.
Proof.
  induction s as [|c r IH]; [reflexivity|]. cbn [beforeFirst].
  destruct (cls c) eqn:Hc; [reflexivity|]. cbn. now rewrite Hc.
Qed.

(** No piece of a split contains a separator. *)
Lemma splitOn_pieces (sep : ascii -> bool) (s : string) :
  Forall (fun piece => allChars (fun c => negb (sep c)) piece = true) (splitOn sep s).
Proof.
  induction s as [|c r IH]; cbn [splitOn].
  - constructor; [reflexivity|constructor].
  - destruct (sep c) eqn:Hc.
    + constructor; [reflexivity|exact IH].
    + destruct (splitOn sep r) as [|h t].
      * constructor; [cbn; now rewrite Hc|constructor].
      * inversion IH as [|? ? Hh Ht]; subst.
        constructor; [cbn; now rewrite Hc, Hh|exact Ht].
Qed.

(* ================================================================== *)
(** ** parseResumeFile: outcomes *)
(* ================================================================== *)

(** X1. Whatever the decoders do, [parseResumeFile] either returns a text or
    fails with [Error "Failed to parse resume file"]: no exception of a
    decoder leaves the function as it was thrown. *)
Theorem parseResumeFile_outcomes :
  forall (pdf : Buffer -> M PdfData) (mammoth : Buffer -> M RawText)
         (buffer : Buffer) (mimetype : string) (w : World),
    (exists t w', parseResumeFile pdf mammoth buffer mimetype w = Ok t w')
    \/ (exists w', parseResumeFile pdf mammoth buffer mimetype w
                   = Throw (Error "Failed to parse resume file") w').
Proof.
  intros pdf mammoth buffer mimetype w.
  destruct (parseResumeFile pdf mammoth buffer mimetype w) as [t w'|e w'] eqn:E.
  - left. eauto.
  - right. exists w'. now rewrite (parseResumeFile_throws _ _ _ _ _ E).
Qed.

(** X2. [parseResumeFile] returns a text exactly when the media type is one
    of the three recognized ones and its decoder resolves, and the text is
    the decoder's, unchanged; the legacy and the XML word-processor types go
    to the same decoder. *)
Theorem parseResumeFile_success :
  forall (pdf : Buffer -> M PdfData) (mammoth : Buffer -> M RawText)
         (buffer : Buffer) (mimetype t : string) (w w' : World),
    parseResumeFile pdf mammoth buffer mimetype w = Ok t w'
    <-> (mimetype = "application/pdf"
         /\ exists data, pdf buffer w = Ok data w' /\ t = text data)
        \/ ((mimetype = "application/vnd.openxmlformats-officedocument.wordprocessingml.document"
             \/ mimetype = "application/msword")
            /\ exists result, mammoth buffer w = Ok result w' /\ t = value result).
Proof.
  intros pdf mammoth buffer mimetype t w w'.
  unfold parseResumeFile, tryCatch, bind, ret, throw.
  destruct (String.eqb_spec mimetype "application/pdf") as [->|Hp].
  { destruct (pdf buffer w) as [d w1|e w1]; split.
    - intros [= <- <-]. left. split; [reflexivity|]. now exists d.
    - intros [(_ & d' & [= <- <-] & ->) | ([H|H] & _)]; [reflexivity|discriminate|discriminate].
    - discriminate.
    - intros [(_ & d' & H & _) | ([H|H] & _)]; discriminate. }
  destruct (String.eqb_spec mimetype
              "application/vnd.openxmlformats-officedocument.wordprocessingml.document")
    as [->|Hx].
  { destruct (mammoth buffer w) as [r w1|e w1]; split.
    - intros [= <- <-]. right. split; [now left|]. now exists r.
    - intros [(H & _) | (_ & r' & [= <- <-] & ->)]; [discriminate|reflexivity].
    - discriminate.
    - intros [(H & _) | (_ & r' & H & _)]; discriminate. }
  destruct (String.eqb_spec mimetype "application/msword") as [->|Hm].
  { destruct (mammoth buffer w) as [r w1|e w1]; split.
    - intros [= <- <-]. right. split; [now right|]. now exists r.
    - intros [(H & _) | (_ & r' & [= <- <-] & ->)]; [discriminate|reflexivity].
    - discriminate.
    - intros [(H & _) | (_ & r' & H & _)]; discriminate. }
  split; [discriminate|].
  intros [(H & _) | ([H|H] & _)]; contradiction.
Qed.

(** X3. Every type that [parseResumeFile] decodes passes the filter of the
    upload handler, and a file without media type does not. *)
Theorem upload_filter_admits_supported :
  (forall mimetype : string,
     supported mimetype = true -> resumeUploadFilter (Some mimetype) = true)
  /\ resumeUploadFilter None = false.
Proof.
  split; [|reflexivity]. intros mimetype H. unfold supported in H.
  apply orb_prop in H as [H|H]; [apply orb_prop in H as [H|H]|];
    apply String.eqb_eq in H; subst; reflexivity.
Qed.

Lemma upload_filter_admits_supported_witness :
  resumeUploadFilter (Some "application/msword") = true.
Proof. apply (proj1 upload_filter_admits_supported). reflexivity. Defined.

(* ================================================================== *)
(** ** The line sequence *)
(* ================================================================== *)

(** X4. The lines that [extractDataFromText] scans are never empty, carry no
    white space at either end and contain no line feed. *)
Theorem linesOf_invariant :
  forall text : string,
    Forall (fun line => line <> ""
                        /\ trim line = line
                        /\ allChars (fun c => negb (isNewline c)) line = true)
           (linesOf text).
Proof.
  intros text. apply Forall_forall. intros line Hin. unfold linesOf in Hin.
  apply filter_In in Hin as [Hin Hlen]. apply in_map_iff in Hin as (piece & <- & Hp).
  split; [|split].
  - intros E. rewrite E in Hlen. discriminate.
  - apply trim_idem.
  - apply allChars_trim.
    pose proof (splitOn_pieces isNewline text) as H. rewrite Forall_forall in H. auto.
Qed.

(* ================================================================== *)
(** ** The scans: further properties *)
(* ================================================================== *)

Lemma scan_before_header (headers stops : list string) (pre rest : list string) :
  Forall (fun l => hasKeyword headers l = false) pre ->
  sectionLines headers stops BeforeSection (pre ++ rest)
  = sectionLines headers stops BeforeSection rest.
Proof.
  induction 1 as [|l pre Hl _ IH]; [reflexivity|].
  cbn [app sectionLines classify]. rewrite Hl. exact IH.
Qed.

(** X5. The lines in front of the first header line of a section do not
    matter to its extractor: dropping them changes neither the entries nor
    the identifiers they get. *)
Theorem lines_before_header_ignored :
  forall (pre rest : list string) (fullText : string) (w : World),
    (Forall (fun l => hasKeyword experienceKeywords l = false) pre ->
     extractExperience (pre ++ rest) fullText w = extractExperience rest fullText w)
    /\ (Forall (fun l => hasKeyword skillKeywords l = false) pre ->
        extractSkills (pre ++ rest) fullText w = extractSkills rest fullText w)
    /\ (Forall (fun l => hasKeyword educationKeywords l = false) pre ->
        extractEducation (pre ++ rest) fullText w = extractEducation rest fullText w).
Proof.
  intros pre rest fullText w. split; [|split]; intros H.
  - rewrite !extractExperience_eq. cbv zeta.
    now rewrite (@scan_before_header experienceKeywords experienceStops pre rest H).
  - rewrite !extractSkills_eq.
    now rewrite (@scan_before_header skillKeywords skillStops pre rest H).
  - rewrite !extractEducation_eq. cbv zeta.
    now rewrite (@scan_before_header educationKeywords educationStops pre rest H).
Qed.

Lemma lines_before_header_ignored_witness :
  extractExperience (["Jane Doe 1990"; "Born 1990, Paris"] ++ ["Work history"; "Acme 2019"])
    "" sampleWorld
  = extractExperience ["Work history"; "Acme 2019"] "" sampleWorld
  /\ extractSkills (["Jane Doe 1990"; "Born 1990, Paris"] ++ ["Skills"; "SQL"]) "" sampleWorld
     = extractSkills ["Skills"; "SQL"] "" sampleWorld
  /\ extractEducation (["Jane Doe 1990"; "Master of none"] ++ ["Education"; "PhD 2012"])
       "" sampleWorld
     = extractEducation ["Education"; "PhD 2012"] "" sampleWorld.
Proof.
  split; [|split].
  - apply (proj1 (lines_before_header_ignored
                    ["Jane Doe 1990"; "Born 1990, Paris"] ["Work history"; "Acme 2019"]
                    "" sampleWorld)).
    repeat constructor.
  - apply (proj1 (proj2 (lines_before_header_ignored
                           ["Jane Doe 1990"; "Born 1990, Paris"] ["Skills"; "SQL"]
                           "" sampleWorld))).
    repeat constructor.
  - apply (proj2 (proj2 (lines_before_header_ignored
                           ["Jane Doe 1990"; "Master of none"] ["Education"; "PhD 2012"]
                           "" sampleWorld))).
    repeat constructor.
Defined.

Lemma Forall_numbered {A B} (mk : string -> B -> A) (P : A -> Prop) (u : nat -> string)
    (ls : list B) :
  (forall id l, In l ls -> P (mk id l)) ->
  forall n, Forall P (numbered mk u n ls).
Proof.
  induction ls as [|l r IH]; intros H n; cbn [numbered]; constructor.
  - apply H. now left.
  - apply IH. intros id l' Hl. apply H. now right.
Qed.

(** X6. Every entry the experience extractor returns has a year token
    (19xx or 20xx) as startDate, null or a year token as endDate, a company
    without digits and without white space at its ends, and nothing in
    position, description and achievements. *)
Theorem experience_entries_invariant :
  forall (lines : list string) (fullText : string) (w : World),
    exists es w',
      extractExperience lines fullText w = Ok es w'
      /\ Forall (fun e =>
                   isYear (Experience.startDate e) = true
                   /\ (Experience.endDate e = None
                       \/ exists y, Experience.endDate e = Some y /\ isYear y = true)
                   /\ allChars (fun c => negb (isDigit c)) (Experience.company e) = true
                   /\ trim (Experience.company e) = Experience.company e
                   /\ Experience.position e = ""
                   /\ Experience.description e = ""
                   /\ Experience.achievements e = [])
                es.
Proof.
  intros lines fullText w. rewrite extractExperience_eq. cbv zeta.
  eexists; eexists; split; [reflexivity|].
  apply Forall_numbered. intros id l Hl. apply filter_In in Hl as [_ Hy].
  unfold experienceOf; cbn [Experience.startDate Experience.endDate Experience.company
                            Experience.position Experience.description
                            Experience.achievements].
  pose proof (years_are_years l) as Hyears. unfold hasYear in Hy.
  repeat split.
  - destruct (years l) as [|y ys]; [discriminate|]. apply Hyears. now left.
  - destruct (nth_error (years l) 1) as [y|] eqn:E; [right|now left].
    exists y. split; [reflexivity|]. apply Hyears. eapply nth_error_In; eauto.
  - apply allChars_trim, allChars_beforeFirst.
  - apply trim_idem.
Qed.

Lemma ids_numbered {A B} (mk : string -> B -> A) (id : A -> string) (u : nat -> string)
    (ls : list B) :
  (forall i l, id (mk i l) = i) ->
  forall n, map id (numbered mk u n ls) = map u (seq n (List.length ls)).
Proof.
  intros H. induction ls as [|l r IH]; intros n; cbn; [reflexivity|].
  now rewrite H, IH.
Qed.

Lemma NoDup_map_injective {A B} (f : A -> B) (l : list A) :
  (forall x y, f x = f y -> x = y) -> NoDup l -> NoDup (map f l).
Proof.
  intros Hf. induction 1 as [|x l Hx _ IH]; cbn; constructor; [|exact IH].
  intros Hin. apply in_map_iff in Hin as (y & E & Hy). apply Hf in E. now subst.
Qed.

Lemma tallyUuid_injective (i j : nat) : tallyUuid i = tallyUuid j -> i = j.
Proof.
  revert j. induction i as [|i IH]; intros [|j]; cbn; try discriminate; auto.
  intros [= E]. now rewrite (IH _ E).
Qed.

(** X7. One run of [extractDataFromText] draws as many identifiers as it
    returns experience and education entries, the experience ones first: the
    experience entries carry, in order, the next identifiers of the
    generator, and the education entries the ones after them. So when the
    generator never repeats itself, all the entries of the result have
    different identifiers. *)
Theorem extracted_ids_distinct :
  forall (text : string) (w : World),
    exists d w',
      extractDataFromText text w = Ok d w'
      /\ map Experience.id (experience d)
         = map (uuids w) (seq (issued w) (List.length (experience d)))
      /\ map Education.id (education d)
         = map (uuids w)
               (seq (issued w + List.length (experience d)) (List.length (education d)))
      /\ uuids w' = uuids w
      /\ issued w' = issued w + List.length (experience d) + List.length (education d)
      /\ ((forall i j, uuids w i = uuids w j -> i = j) ->
          NoDup (map Experience.id (experience d) ++ map Education.id (education d))).
Proof.
  intros text w. rewrite extractDataFromText_eq. cbv zeta.
  eexists; eexists; split; [reflexivity|].
  cbn [issued uuids experience education].
  assert (Len : forall A B (mk : string -> B -> A) u ls n,
             List.length (numbered mk u n ls) = List.length ls).
  { intros A B mk u ls. induction ls; intros n; cbn; auto. }
  rewrite !Len.
  rewrite (ids_numbered experienceOf Experience.id) by reflexivity.
  rewrite (ids_numbered educationOf Education.id) by reflexivity.
  split; [reflexivity|]. split; [now rewrite Nat.add_comm|].
  split; [reflexivity|]. split; [lia|].
  intros Hinj. rewrite <- map_app, Nat.add_comm, <- seq_app.
  apply NoDup_map_injective; [exact Hinj|apply seq_NoDup].
Qed.

Lemma extracted_ids_distinct_witness :
  exists d,
    returned (extractDataFromText
                ("Experience" ++ LF ++ "Acme 2019" ++ LF ++ "Education" ++ LF
                   ++ "Master 2018")%string (mkWorld tallyUuid 0)) = Some d
    /\ map Experience.id (experience d) = ["id"]
    /\ map Education.id (education d) = ["xid"]
    /\ NoDup (map Experience.id (experience d) ++ map Education.id (education d)).
Proof.
  destruct (extracted_ids_distinct
              ("Experience" ++ LF ++ "Acme 2019" ++ LF ++ "Education" ++ LF
                 ++ "Master 2018")%string (mkWorld tallyUuid 0))
    as (d & w' & E & He & Hd & _ & _ & Hnd).
  exists d. rewrite E. split; [reflexivity|].
  assert (Ev : returned (extractDataFromText
                ("Experience" ++ LF ++ "Acme 2019" ++ LF ++ "Education" ++ LF
                   ++ "Master 2018")%string (mkWorld tallyUuid 0)) = Some d)
    by now rewrite E.
  vm_compute in Ev. injection Ev as <-.
  split; [reflexivity|]. split; [reflexivity|].
  apply Hnd. exact tallyUuid_injective.
Defined.

Lemma count_map_filter {A B} (q : B -> bool) (g : A -> B) (p : A -> bool) (l : list A) :
  List.length (filter q (map g (filter p l)))
  = List.length (filter (fun t => q (g t) && p t) l).
Proof.
  induction l as [|x l IH]; cbn; [reflexivity|].
  destruct (p x); cbn; [destruct (q (g x)); cbn; now rewrite IH|].
  now rewrite andb_false_r.
Qed.

Lemma count_flat_map {A B} (q : B -> bool) (f : A -> list B) (l : list A) :
  List.length (filter q (flat_map f l))
  = list_sum (map (fun x => List.length (filter q (f x))) l).
Proof.
  induction l as [|x l IH]; cbn; [reflexivity|].
  now rewrite filter_app, length_app, IH.
Qed.

Lemma javascript_counts_java (l : string) :
  List.length (filter (fun s => String.eqb (Skill.name s) "javascript") (skillsOfLine l))
  <= List.length (filter (fun s => String.eqb (Skill.name s) "java") (skillsOfLine l)).
Proof.
  unfold skillsOfLine. rewrite !count_map_filter. unfold commonSkills. cbn.
  destruct (includes (toLowerCase l) "javascript") eqn:E; [|apply Nat.le_0_l].
  rewrite (includes_trans (toLowerCase l) "javascript" "java" E eq_refl). apply Nat.le_refl.
Qed.

(** X8. Substring matching makes the vocabulary term "java" fire on every
    line on which "javascript" fires: the result never has fewer entries
    named "java" than entries named "javascript". *)
Theorem skills_javascript_implies_java :
  forall (lines : list string) (fullText : string) (w : World),
    exists ss w',
      extractSkills lines fullText w = Ok ss w'
      /\ List.length (filter (fun s => String.eqb (Skill.name s) "javascript") ss)
         <= List.length (filter (fun s => String.eqb (Skill.name s) "java") ss).
Proof.
  intros lines fullText w. rewrite extractSkills_eq.
  eexists; eexists; split; [reflexivity|].
  rewrite !count_flat_map.
  induction (sectionLines skillKeywords skillStops BeforeSection lines) as [|l r IH];
    cbn [map list_sum]; [apply Nat.le_refl|].
  apply Nat.add_le_mono; [apply javascript_counts_java|exact IH].
Qed.

(** X9. Every entry the education extractor returns has a lower-case degree
    that contains a degree keyword; its dates are either both empty or both
    year tokens; institution and field are empty and gpa is absent. *)
Theorem education_entries_invariant :
  forall (lines : list string) (fullText : string) (w : World),
    exists ds w',
      extractEducation lines fullText w = Ok ds w'
      /\ Forall (fun e =>
                   toLowerCase (Education.degree e) = Education.degree e
                   /\ existsb (fun keyword => includes (Education.degree e) keyword)
                              degreeKeywords = true
                   /\ ((Education.startDate e = "" /\ Education.endDate e = "")
                       \/ (isYear (Education.startDate e) = true
                           /\ isYear (Education.endDate e) = true))
                   /\ Education.institution e = ""
                   /\ Education.field e = ""
                   /\ Education.gpa e = None)
                ds.
Proof.
  intros lines fullText w. rewrite extractEducation_eq. cbv zeta.
  eexists; eexists; split; [reflexivity|].
  apply Forall_numbered. intros id l Hl. apply filter_In in Hl as [_ Hd].
  unfold educationOf; cbn [Education.degree Education.startDate Education.endDate
                           Education.institution Education.field Education.gpa].
  pose proof (years_are_years l) as Hyears.
  repeat split.
  - apply toLowerCase_idem.
  - exact Hd.
  - destruct (years l) as [|a [|b t]]; cbn [nth].
    + now left.
    + right. split; apply Hyears; now left.
    + right. split; apply Hyears; [now left|right; now left].
Qed.

(* ================================================================== *)
(** ** Personal info: the shape of the fields *)
(* ================================================================== *)

(** X10. The extracted name consists of word characters and white space
    only, and has no white space at either end. *)
Theorem name_is_clean :
  forall (lines : list string) (fullText : string),
    allChars nameKeep (name (extractPersonalInfo lines fullText)) = true
    /\ trim (name (extractPersonalInfo lines fullText))
       = name (extractPersonalInfo lines fullText).
Proof.
  intros lines fullText. cbn [extractPersonalInfo name]. split.
  - apply allChars_trim, allChars_filterChars.
  - apply trim_idem.
Qed.

(** X11. The extracted email is empty or has the shape local@host.tld: a
    non-empty local part, a non-empty host, a dot and at least two letters
    (or bars), each over its character class. *)
Theorem email_shape :
  forall (lines : list string) (fullText : string),
    let e := email (extractPersonalInfo lines fullText) in
    e = ""
    \/ exists l h t,
         e = (l ++ "@" ++ h ++ "." ++ t)%string
         /\ 1 <= String.length l /\ allChars emailLocal l = true
         /\ 1 <= String.length h /\ allChars emailHost h = true
         /\ 2 <= String.length t /\ allChars emailTld t = true.
Proof.
  intros lines fullText. cbn [extractPersonalInfo email]. cbv zeta.
  destruct (matchFirst emailRegex fullText) as [m|] eqn:E; [|now left].
  rewrite orEmpty_Some. right.
  apply matchFirst_sound in E. unfold emailRegex in E. cbn [lang] in E.
  destruct E as (m0 & m1 & -> & -> & l & m2 & -> & [Hl1 Hl2] & m3 & m4 & -> & (c & -> & Hc)
                 & h & m5 & -> & [Hh1 Hh2] & m6 & m7 & -> & (c' & -> & Hc')
                 & t & m8 & -> & [Ht1 Ht2] & ->).
  unfold exactly in Hc, Hc'. apply Ascii.eqb_eq in Hc, Hc'. subst c c'.
  exists l, h, t. cbn [append]. rewrite (append_empty_right t). auto 10.
Qed.

Lemma phoneSep_not_digit (c : ascii) : phoneSep c = true -> isDigit c = false.
Proof.
  destruct c as [[] [] [] [] [] [] [] []]; vm_compute; intros H;
    first [reflexivity | discriminate H].
Qed.

Lemma phone_match_digits (m : string) :
  lang phoneRegex m -> countIf isDigit m = 10 \/ countIf isDigit m = 11.
Proof.
  unfold phoneRegex, digits4, digits3. cbn [lang]. intros H.
  repeat match type of H with
         | exists _, _ => destruct H as [? H]
         | _ /\ _ => let H' := fresh "H" in destruct H as [H' H]
         end.
  repeat match goal with
         | H : exists _, _ |- _ => destruct H
         | H : _ /\ _ |- _ => destruct H
         | H : _ \/ _ |- _ => destruct H
         end;
    subst;
    repeat match goal with
           | H : exactly _ _ = true |- _ => apply Ascii.eqb_eq in H; subst
           | H : phoneSep _ = true |- _ => apply phoneSep_not_digit in H
           end;
    cbn [append countIf];
    repeat match goal with
           | H : isDigit _ = _ |- _ => rewrite H; clear H
           end;
    vm_compute; auto.
Qed.

(** X12. The extracted phone is empty or contains exactly ten or eleven
    digits (eleven with the country code 1). *)
Theorem phone_digits :
  forall (lines : list string) (fullText : string),
    let p := phone (extractPersonalInfo lines fullText) in
    p = "" \/ countIf isDigit p = 10 \/ countIf isDigit p = 11.
Proof.
  intros lines fullText. cbn [extractPersonalInfo phone]. cbv zeta.
  rewrite phone_unfiltered.
  destruct (matchFirst phoneRegex fullText) as [m|] eqn:E; [|now left].
  rewrite orEmpty_Some. right. apply phone_match_digits.
  eapply matchFirst_sound; eauto.
Qed.

Lemma lang_lit_nocase (str : string) (tail : regex) :
  forall m,
    lang (lit isNoCase str tail) m ->
    exists p s, m = (p ++ s)%string /\ toLowerCase p = toLowerCase str /\ lang tail s.
Proof.
  induction str as [|a str IH]; intros m H; cbn [lit] in H.
  - now exists "", m.
  - cbn [lang] in H. destruct H as (m1 & m2 & -> & (c & -> & Hc) & H2).
    destruct (IH _ H2) as (p & s & -> & Hp & Hs).
    exists (String c p), s. cbn. unfold isNoCase in Hc. apply Ascii.eqb_eq in Hc.
    now rewrite <- Hc, Hp.
Qed.

(** X13. The extracted linkedin field is empty or is "linkedin.com/in/", in
    any mix of cases, followed by a non-empty run of letters, digits and
    hyphens. *)
Theorem linkedin_shape :
  forall (lines : list string) (fullText : string),
    exists v,
      linkedin (extractPersonalInfo lines fullText) = Some v
      /\ (v = ""
          \/ exists p slug,
               v = (p ++ slug)%string
               /\ toLowerCase p = "linkedin.com/in/"
               /\ 1 <= String.length slug
               /\ allChars linkedinSlug slug = true).
Proof.
  intros lines fullText. cbn [extractPersonalInfo linkedin].
  eexists; split; [reflexivity|].
  destruct (matchFirst linkedinRegex fullText) as [m|] eqn:E; [|now left].
  rewrite orEmpty_Some. right.
  apply matchFirst_sound in E. unfold linkedinRegex in E.
  apply lang_lit_nocase in E as (p & s & -> & Hp & [Hs1 Hs2]).
  exists p, s. auto.
Qed.

(* ================================================================== *)
(** ** aiProcessor.ts: the local fallbacks *)
(* ================================================================== *)

(** X14. A job description that mentions "senior", "lead" or "principal"
    anywhere, in any mix of cases and also inside a longer word, is rated
    senior, whatever else it says; one that mentions "junior", "entry" or
    "graduate" is never rated mid. *)
Theorem experience_level_keywords :
  forall a k b : string,
    (In (toLowerCase k) ["senior"; "lead"; "principal"] ->
     AiProcessor.determineExperienceLevel (a ++ k ++ b) = AiProcessor.senior)
    /\ (In (toLowerCase k) ["junior"; "entry"; "graduate"] ->
        AiProcessor.determineExperienceLevel (a ++ k ++ b) <> AiProcessor.mid).
Proof.
  intros a k b.
  assert (Inc : includes (toLowerCase (a ++ k ++ b)) (toLowerCase k) = true).
  { rewrite !toLowerCase_append. apply includes_append. }
  unfold AiProcessor.determineExperienceLevel. cbv zeta. split; intros H.
  - destruct H as [H|[H|[H|[]]]]; rewrite <- H in Inc; rewrite Inc; now rewrite ?orb_true_r.
  - destruct (_ || _ || _); [discriminate|].
    destruct H as [H|[H|[H|[]]]]; rewrite <- H in Inc; rewrite Inc; rewrite ?orb_true_r;
      discriminate.
Qed.

Lemma experience_level_keywords_witness :
  AiProcessor.determineExperienceLevel
    ("Junior developer with " ++ "LEAD" ++ "ership potential")
  = AiProcessor.senior
  /\ AiProcessor.determineExperienceLevel ("Data " ++ "Entry" ++ " clerk") <> AiProcessor.mid.
Proof.
  split.
  - apply (proj1 (experience_level_keywords "Junior developer with " "LEAD"
                    "ership potential")).
    right. left. reflexivity.
  - apply (proj2 (experience_level_keywords "Data " "Entry" " clerk")).
    right. left. reflexivity.
Defined.

Lemma aiCommonSkills_NoDup : NoDup AiProcessor.commonSkills.
Proof.
  unfold AiProcessor.commonSkills.
  repeat (constructor; [cbn; intuition discriminate|]). constructor.
Qed.

(** X15. The skills found in a job description are vocabulary terms, each
    at most once and in vocabulary order; the search ignores case; and what
    is found in a text is found in every text that contains it. *)
Theorem job_skills_from_text :
  forall text : string,
    NoDup (AiProcessor.extractSkillsFromText text)
    /\ incl (AiProcessor.extractSkillsFromText text) AiProcessor.commonSkills
    /\ AiProcessor.extractSkillsFromText (toLowerCase text)
       = AiProcessor.extractSkillsFromText text
    /\ forall a b : string,
         incl (AiProcessor.extractSkillsFromText text)
              (AiProcessor.extractSkillsFromText (a ++ text ++ b)).
Proof.
  intros text. unfold AiProcessor.extractSkillsFromText. repeat split.
  - apply NoDup_filter, aiCommonSkills_NoDup.
  - intros s Hs. now apply filter_In in Hs.
  - now rewrite toLowerCase_idem.
  - intros a b s Hs. apply filter_In in Hs as [Hs Hi]. apply filter_In. split; [exact Hs|].
    rewrite !toLowerCase_append.
    eapply includes_trans; [apply includes_append|exact Hi].
Qed.

Lemma existsb_map {A B} (g : B -> bool) (f : A -> B) (l : list A) :
  existsb g (map f l) = existsb (fun x => g (f x)) l.
Proof. induction l; cbn; [|rewrite IHl]; reflexivity. Qed.

Lemma filter_map_length {A B} (p : B -> bool) (f : A -> B) (l : list A) :
  List.length (filter p (map f l)) = List.length (filter (fun x => p (f x)) l).
Proof.
  induction l as [|x l IH]; cbn; [reflexivity|]. destruct (p (f x)); cbn; now rewrite IH.
Qed.

Section FallbackScore.

Context {N : AiProcessor.JsNumber}.

(** X16. In the fallback enhancements the experience is the extracted one,
    the matched skills are some of the resume's skill names, and the score
    is the rounded, capped percentage of the number of matched skills over
    the number of required skills: the two differently written matching
    tests of [calculateATSScore] and [createFallbackEnhancements] agree. *)
Theorem fallback_score_counts_matched_skills :
  forall (resumeData : ExtractedData) (job : AiProcessor.JobRequirements),
    let f := AiProcessor.createFallbackEnhancements resumeData job in
    AiProcessor.optimized_experience f = experience resumeData
    /\ incl (AiProcessor.matched_skills f) (map Skill.name (skills resumeData))
    /\ AiProcessor.ats_score f
       = AiProcessor.Math_min
           (AiProcessor.Math_round
              (AiProcessor.times
                 (AiProcessor.divide
                    (AiProcessor.ofLength (List.length (AiProcessor.matched_skills f)))
                    (AiProcessor.ofLength
                       (List.length (AiProcessor.required_skills job))))
                 AiProcessor.hundred))
           AiProcessor.hundred.
Proof.
  intros resumeData job. cbv zeta. split; [reflexivity|]. split.
  - intros s Hs. cbn in Hs. now apply filter_In in Hs.
  - cbn [AiProcessor.createFallbackEnhancements AiProcessor.ats_score
         AiProcessor.matched_skills].
    unfold AiProcessor.calculateATSScore. cbv zeta.
    rewrite !length_map, !filter_map_length. do 5 f_equal.
    f_equal. apply filter_ext. intros s. unfold some.
    rewrite existsb_map. clear.
    induction (AiProcessor.required_skills job) as [|r l IH]; cbn; [reflexivity|].
    now rewrite IH, (orb_comm (includes (toLowerCase r) (toLowerCase (Skill.name s)))).
Qed.

(** X17. With no required skills nothing is matched and the score is
    computed from the quotient of zero by zero. *)
Theorem score_without_required_skills :
  forall (resumeData : ExtractedData) (job : AiProcessor.JobRequirements),
    AiProcessor.required_skills job = [] ->
    AiProcessor.matched_skills (AiProcessor.createFallbackEnhancements resumeData job) = []
    /\ AiProcessor.calculateATSScore resumeData job
       = AiProcessor.Math_min
           (AiProcessor.Math_round
              (AiProcessor.times
                 (AiProcessor.divide (AiProcessor.ofLength 0) (AiProcessor.ofLength 0))
                 AiProcessor.hundred))
           AiProcessor.hundred.
Proof.
  intros resumeData job H. split.
  - cbn. rewrite H. cbn. induction (skills resumeData); cbn; auto.
  - unfold AiProcessor.calculateATSScore. cbv zeta. rewrite H. cbn [map List.length some existsb].
    do 4 f_equal. f_equal. induction (map _ (skills resumeData)); cbn; auto.
Qed.

(** X18. Along the upload path, whatever the text and the job
    requirements, the matched skills of the fallback are lower-case terms of
    the vocabulary of the skills extractor. *)
Theorem fallback_matches_vocabulary_terms :
  forall (text : string) (w : World) (job : AiProcessor.JobRequirements),
    exists d w',
      extractDataFromText text w = Ok d w'
      /\ incl (AiProcessor.matched_skills (AiProcessor.createFallbackEnhancements d job))
              commonSkills.
Proof.
  intros text w job. rewrite extractDataFromText_eq. cbv zeta.
  eexists; eexists; split; [reflexivity|].
  intros s Hs. cbn in Hs. apply filter_In in Hs as [Hs _].
  apply in_map_iff in Hs as (sk & <- & Hsk).
  apply in_flat_map in Hsk as (l & _ & Hl). unfold skillsOfLine in Hl.
  apply in_map_iff in Hl as (t & <- & Ht). apply filter_In in Ht as [Ht _]. exact Ht.
Qed.

End FallbackScore.

Lemma score_without_required_skills_witness :
  @AiProcessor.calculateATSScore symbolicNumber
    {| personal_info := extractPersonalInfo [] "";
       experience := [];
       skills := [skillOf "python"];
       education := [] |}
    {| AiProcessor.required_skills := [];
       AiProcessor.preferred_skills := [];
       AiProcessor.experience_level := AiProcessor.mid;
       AiProcessor.responsibilities := [];
       AiProcessor.qualifications := [] |}
  = Min (Round (Times (Divide (Length 0) (Length 0)) Hundred)) Hundred.
Proof.
  apply (proj2 (@score_without_required_skills symbolicNumber _
                  {| AiProcessor.required_skills := [];
                     AiProcessor.preferred_skills := [];
                     AiProcessor.experience_level := AiProcessor.mid;
                     AiProcessor.responsibilities := [];
                     AiProcessor.qualifications := [] |}
                  eq_refl)).
Defined.

(* ================================================================== *)
(** ** auth.ts: one-time codes *)
(* ================================================================== *)

Lemma Map_get_set_same (m : Auth.OtpStorage) (k : string) (v : Auth.StoredOtp) :
  Auth.Map_get (Auth.Map_set m k v) k = Some v.
Proof. unfold Auth.Map_get, Auth.Map_set. now rewrite String.eqb_refl. Qed.

Lemma Map_get_delete_same (m : Auth.OtpStorage) (k : string) :
  Auth.Map_get (Auth.Map_delete m k) k = None.
Proof. unfold Auth.Map_get, Auth.Map_delete. now rewrite String.eqb_refl. Qed.

(** X19. A code verified in time, up to and including the tenth minute
    after it was stored, is accepted once: the verification deletes it, and
    every later verification for that email fails until a new code is
    stored. *)
Theorem otp_accepted_once :
  forall (st : Auth.OtpStorage) (email code : string) (t t' : Z),
    (t' <= t + 600000)%Z ->
    let st1 := Auth.storeOTP email code t st in
    fst (Auth.verifyOTP email code t' st1) = true
    /\ forall (code' : string) (t'' : Z),
         fst (Auth.verifyOTP email code' t'' (snd (Auth.verifyOTP email code t' st1))) = false.
Proof.
  intros st email code t t' Ht. cbv zeta.
  unfold Auth.verifyOTP at 1 3, Auth.storeOTP. rewrite Map_get_set_same.
  cbn [Auth.expires Auth.otp]. unfold Auth.OTP_EXPIRY_MINUTES.
  replace (t + 10 * 60 * 1000 <? t')%Z with false by (symmetry; apply Z.ltb_ge; lia).
  rewrite String.eqb_refl. cbn [fst snd]. split; [reflexivity|].
  intros code' t''. unfold Auth.verifyOTP. now rewrite Map_get_delete_same.
Qed.

Lemma otp_accepted_once_witness :
  fst (Auth.verifyOTP "test@example.com" "123456" 1600000
         (Auth.storeOTP "test@example.com" "123456" 1000000 Auth.Map_empty)) = true.
Proof.
  refine (proj1 (@otp_accepted_once Auth.Map_empty "test@example.com" "123456"
                   1000000%Z 1600000%Z _)).
  vm_compute. discriminate.
Defined.

(** X20. A wrong code is refused and changes nothing: the stored code stays
    valid, so any number of guesses can be made before it expires. *)
Theorem otp_wrong_code_keeps_entry :
  forall (st : Auth.OtpStorage) (email code guess : string) (t t' : Z),
    guess <> code ->
    (t' <= t + 600000)%Z ->
    Auth.verifyOTP email guess t' (Auth.storeOTP email code t st)
    = (false, Auth.storeOTP email code t st).
Proof.
  intros st email code guess t t' Hg Ht.
  unfold Auth.verifyOTP, Auth.storeOTP. rewrite Map_get_set_same.
  cbn [Auth.expires Auth.otp]. unfold Auth.OTP_EXPIRY_MINUTES.
  replace (t + 10 * 60 * 1000 <? t')%Z with false by (symmetry; apply Z.ltb_ge; lia).
  destruct (String.eqb_spec code guess) as [E|_]; [now subst|reflexivity].
Qed.

Lemma otp_wrong_code_keeps_entry_witness :
  Auth.verifyOTP "test@example.com" "654321" 1000001
    (Auth.storeOTP "test@example.com" "123456" 1000000 Auth.Map_empty)
  = (false, Auth.storeOTP "test@example.com" "123456" 1000000 Auth.Map_empty).
Proof.
  apply otp_wrong_code_keeps_entry.
  - discriminate.
  - vm_compute. discriminate.
Defined.

(** X21. After more than ten minutes the stored code is refused, even when
    it is the right one, and the verification deletes it. *)
Theorem otp_expires :
  forall (st : Auth.OtpStorage) (email code provided : string) (t t' : Z),
    (t + 600000 < t')%Z ->
    let r := Auth.verifyOTP email provided t' (Auth.storeOTP email code t st) in
    fst r = false /\ Auth.Map_get (snd r) email = None.
Proof.
  intros st email code provided t t' Ht. cbv zeta.
  unfold Auth.verifyOTP, Auth.storeOTP. rewrite Map_get_set_same.
  cbn [Auth.expires]. unfold Auth.OTP_EXPIRY_MINUTES.
  replace (t + 10 * 60 * 1000 <? t')%Z with true by (symmetry; apply Z.ltb_lt; lia).
  cbn [fst snd]. split; [reflexivity|apply Map_get_delete_same].
Qed.

Lemma otp_expires_witness :
  fst (Auth.verifyOTP "test@example.com" "123456" (1000000 + 11 * 60 * 1000)
         (Auth.storeOTP "test@example.com" "123456" 1000000 Auth.Map_empty)) = false.
Proof.
  refine (proj1 (@otp_expires Auth.Map_empty "test@example.com" "123456" "123456"
                   1000000%Z (1000000 + 11 * 60 * 1000)%Z _)).
  vm_compute. reflexivity.
Defined.

Lemma verifyOTP_other (m : Auth.OtpStorage) (email other provided : string) (t : Z) :
  String.eqb other email = false ->
  Auth.Map_get (snd (Auth.verifyOTP email provided t m)) other = Auth.Map_get m other.
Proof.
  intros Hne. unfold Auth.verifyOTP.
  destruct (Auth.Map_get m email) as [stored|]; [|reflexivity].
  destruct (Auth.expires stored <? t)%Z; cbn [snd].
  - unfold Auth.Map_get, Auth.Map_delete. now rewrite Hne.
  - destruct (String.eqb (Auth.otp stored) provided); [|reflexivity].
    unfold Auth.Map_get, Auth.Map_delete. now rewrite Hne.
Qed.

(** X22. Storing a code replaces the one stored before for the same email,
    which is then refused; and neither storing nor verifying for one email
    touches what is stored for another. *)
Theorem otp_per_email :
  forall (st : Auth.OtpStorage) (email other old new provided : string) (t1 t2 t' : Z),
    old <> new ->
    other <> email ->
    let st2 := Auth.storeOTP email new t2 (Auth.storeOTP email old t1 st) in
    fst (Auth.verifyOTP email old t' st2) = false
    /\ Auth.Map_get st2 other = Auth.Map_get st other
    /\ Auth.Map_get (snd (Auth.verifyOTP email provided t' st2)) other = Auth.Map_get st other.
Proof.
  intros st email other old new provided t1 t2 t' Hon Hoe. cbv zeta.
  assert (Hne : String.eqb other email = false) by now apply String.eqb_neq.
  assert (Other : forall m c t, Auth.Map_get (Auth.storeOTP email c t m) other
                                = Auth.Map_get m other).
  { intros m c t. unfold Auth.Map_get, Auth.storeOTP, Auth.Map_set. now rewrite Hne. }
  split; [|split].
  - unfold Auth.verifyOTP, Auth.storeOTP at 1. rewrite Map_get_set_same.
    cbn [Auth.expires Auth.otp].
    destruct (t2 + Auth.OTP_EXPIRY_MINUTES * 60 * 1000 <? t')%Z; [reflexivity|].
    destruct (String.eqb_spec new old) as [E|_]; [now subst|reflexivity].
  - now rewrite !Other.
  - now rewrite verifyOTP_other, !Other.
Qed.

Lemma otp_per_email_witness :
  fst (Auth.verifyOTP "a@example.com" "111111" 1000001
         (Auth.storeOTP "a@example.com" "222222" 1000000
            (Auth.storeOTP "a@example.com" "111111" 999000 Auth.Map_empty))) = false.
Proof.
  refine (proj1 (@otp_per_email Auth.Map_empty "a@example.com" "b@example.com"
                   "111111" "222222" "111111" 999000%Z 1000000%Z 1000001%Z _ _));
    discriminate.
Defined.

(** X23. [getUserFromToken] never rejects: a token that fails verification
    and a failing or empty database read all give null. *)
Theorem getUserFromToken_never_rejects :
  forall (jwt_verify : string -> M Auth.Decoded) (readUser : string -> M (option Auth.User))
         (token : string) (w : World),
    (exists r w', Auth.getUserFromToken jwt_verify readUser token w = Ok r w')
    /\ (forall e w1,
          jwt_verify token w = Throw e w1 ->
          Auth.getUserFromToken jwt_verify readUser token w = Ok None w1)
    /\ (forall d w1 e w2,
          jwt_verify token w = Ok d w1 ->
          readUser (Auth.userId d) w1 = Throw e w2 ->
          Auth.getUserFromToken jwt_verify readUser token w = Ok None w2).
Proof.
  intros jwt_verify readUser token w.
  unfold Auth.getUserFromToken, Auth.verifyJWT, tryCatch, bind, ret.
  split; [|split].
  - destruct (jwt_verify token w) as [d w1|e w1]; [|eauto].
    destruct (readUser (Auth.userId d) w1) as [r w2|e w2]; eauto.
  - intros e w1 ->. reflexivity.
  - intros d w1 e w2 -> ->. reflexivity.
Qed.

Lemma getUserFromToken_never_rejects_witness :
  Auth.getUserFromToken (fun _ => throw (Error "jwt malformed")) (fun _ => ret None)
    "not-a-token" sampleWorld
  = Ok None sampleWorld
  /\ Auth.getUserFromToken (fun _ => ret {| Auth.userId := "user-123" |})
       (fun _ => throw (Error "Service unavailable")) "a-token" sampleWorld
     = Ok None sampleWorld.
Proof.
  split.
  - apply (proj1 (proj2 (getUserFromToken_never_rejects
                           (fun _ => throw (Error "jwt malformed")) (fun _ => ret None)
                           "not-a-token" sampleWorld))
             (Error "jwt malformed")).
    reflexivity.
  - apply (proj2 (proj2 (getUserFromToken_never_rejects
                           (fun _ => ret {| Auth.userId := "user-123" |})
                           (fun _ => throw (Error "Service unavailable"))
                           "a-token" sampleWorld))
             {| Auth.userId := "user-123" |} sampleWorld (Error "Service unavailable"));
      reflexivity.
Defined.

(* ================================================================== *)
(** ** The scans: termination and inert lines *)
(* ================================================================== *)

Lemma scan_after_done (headers stops : list string) (pre post : list string) :
  phaseAfter headers stops BeforeSection pre = Done ->
  sectionLines headers stops BeforeSection (pre ++ post)
  = sectionLines headers stops BeforeSection pre.
Proof.
  intros H. now rewrite sectionLines_app, H, sectionLines_Done, app_nil_r.
Qed.

(** X24. A scan that has ended never resumes: once the lines read so far
    have taken a scan past its terminating line, nothing that follows, not
    even another header of the section, adds an entry. *)
Theorem scan_never_resumes :
  forall (pre post : list string) (fullText : string) (w : World),
    (phaseAfter experienceKeywords experienceStops BeforeSection pre = Done ->
     extractExperience (pre ++ post) fullText w = extractExperience pre fullText w)
    /\ (phaseAfter skillKeywords skillStops BeforeSection pre = Done ->
        extractSkills (pre ++ post) fullText w = extractSkills pre fullText w)
    /\ (phaseAfter educationKeywords educationStops BeforeSection pre = Done ->
        extractEducation (pre ++ post) fullText w = extractEducation pre fullText w).
Proof.
  intros pre post fullText w. split; [|split]; intros H.
  - rewrite !extractExperience_eq. cbv zeta.
    now rewrite (@scan_after_done experienceKeywords experienceStops pre post H).
  - rewrite !extractSkills_eq.
    now rewrite (@scan_after_done skillKeywords skillStops pre post H).
  - rewrite !extractEducation_eq. cbv zeta.
    now rewrite (@scan_after_done educationKeywords educationStops pre post H).
Qed.

Lemma scan_never_resumes_witness :
  extractExperience (["Experience"; "Acme 2019"; "Skills"] ++ ["Employment"; "Globex 2016"])
    "" sampleWorld
  = extractExperience ["Experience"; "Acme 2019"; "Skills"] "" sampleWorld
  /\ extractSkills (["Skills"; "Python"; "Projects"] ++ ["Technical skills"; "React, SQL"])
       "" sampleWorld
     = extractSkills ["Skills"; "Python"; "Projects"] "" sampleWorld
  /\ extractEducation (["Education"; "PhD 2012"; "Projects"] ++ ["Qualifications"; "Diploma"])
       "" sampleWorld
     = extractEducation ["Education"; "PhD 2012"; "Projects"] "" sampleWorld.
Proof.
  split; [|split].
  - apply (proj1 (scan_never_resumes ["Experience"; "Acme 2019"; "Skills"]
                    ["Employment"; "Globex 2016"] "" sampleWorld)).
    reflexivity.
  - apply (proj1 (proj2 (scan_never_resumes ["Skills"; "Python"; "Projects"]
                           ["Technical skills"; "React, SQL"] "" sampleWorld))).
    reflexivity.
  - apply (proj2 (proj2 (scan_never_resumes ["Education"; "PhD 2012"; "Projects"]
                           ["Qualifications"; "Diploma"] "" sampleWorld))).
    reflexivity.
Defined.

(** X25. In the skills and education scans, as in the experience scan, a
    line inside the section that contains a stop keyword and no header
    keyword of the section ends the scan: neither it nor any later line
    contributes. *)
Theorem skills_education_terminators :
  forall (pre post : list string) (l fullText : string) (w : World),
    (phaseAfter skillKeywords skillStops BeforeSection pre = InsideSection ->
     hasKeyword skillKeywords l = false ->
     hasKeyword skillStops l = true ->
     extractSkills (pre ++ l :: post) fullText w = extractSkills pre fullText w)
    /\ (phaseAfter educationKeywords educationStops BeforeSection pre = InsideSection ->
        hasKeyword educationKeywords l = false ->
        hasKeyword educationStops l = true ->
        extractEducation (pre ++ l :: post) fullText w = extractEducation pre fullText w).
Proof.
  intros pre post l fullText w. split; intros Hp Hh Hs.
  - rewrite !extractSkills_eq.
    now rewrite (@sectionLines_stop skillKeywords skillStops pre post l Hp Hh Hs).
  - rewrite !extractEducation_eq. cbv zeta.
    now rewrite (@sectionLines_stop educationKeywords educationStops pre post l Hp Hh Hs).
Qed.

Lemma skills_education_terminators_witness :
  extractSkills (["Skills"; "Python, SQL"] ++ "Education" :: ["HTML and CSS course"])
    "" sampleWorld
  = extractSkills ["Skills"; "Python, SQL"] "" sampleWorld
  /\ extractEducation (["Education"; "Bachelor of Arts 2010-2014"]
                         ++ "Work Experience" :: ["Diploma thesis advisor 2015"])
       "" sampleWorld
     = extractEducation ["Education"; "Bachelor of Arts 2010-2014"] "" sampleWorld.
Proof.
  split.
  - apply (proj1 (skills_education_terminators ["Skills"; "Python, SQL"]
                    ["HTML and CSS course"] "Education" "" sampleWorld));
      reflexivity.
  - apply (proj2 (skills_education_terminators ["Education"; "Bachelor of Arts 2010-2014"]
                    ["Diploma thesis advisor 2015"] "Work Experience" "" sampleWorld));
      reflexivity.
Defined.

Lemma inert_line (headers stops : list string) (q : string -> bool)
    (pre post : list string) (l : string) :
  hasKeyword headers l = false ->
  hasKeyword stops l = false ->
  q l = false ->
  filter q (sectionLines headers stops BeforeSection (pre ++ l :: post))
  = filter q (sectionLines headers stops BeforeSection (pre ++ post)).
Proof.
  intros Hh Hs Hq. rewrite !sectionLines_app, !filter_app. f_equal.
  cbn [sectionLines]. destruct (phaseAfter headers stops BeforeSection pre);
    cbn [classify]; rewrite ?Hh, ?Hs; cbn [fst snd app filter]; now rewrite ?Hq.
Qed.

(** X26. A line with no header keyword, no stop keyword and no year token
    is inert for the experience extractor, and one with no header keyword,
    no stop keyword and no degree keyword is inert for the education
    extractor: deleting it anywhere changes nothing, so the text lines of an
    entry never reach its position, description or institution. *)
Theorem inert_lines_are_dropped :
  forall (pre post : list string) (l fullText : string) (w : World),
    (hasKeyword experienceKeywords l = false ->
     hasKeyword experienceStops l = false ->
     hasYear l = false ->
     extractExperience (pre ++ l :: post) fullText w
     = extractExperience (pre ++ post) fullText w)
    /\ (hasKeyword educationKeywords l = false ->
        hasKeyword educationStops l = false ->
        hasDegree l = false ->
        extractEducation (pre ++ l :: post) fullText w
        = extractEducation (pre ++ post) fullText w).
Proof.
  intros pre post l fullText w. split; intros Hh Hs Hq.
  - rewrite !extractExperience_eq. cbv zeta.
    now rewrite (@inert_line experienceKeywords experienceStops hasYear pre post l Hh Hs Hq).
  - rewrite !extractEducation_eq. cbv zeta.
    now rewrite (@inert_line educationKeywords educationStops hasDegree pre post l Hh Hs Hq).
Qed.

Lemma inert_lines_are_dropped_witness :
  extractExperience (["Experience"; "Acme Corp 2019-2021"]
                       ++ "Developed web applications" :: ["Globex 2016"])
    "" sampleWorld
  = extractExperience (["Experience"; "Acme Corp 2019-2021"] ++ ["Globex 2016"])
      "" sampleWorld
  /\ extractEducation (["Education"; "Bachelor of Computer Science"]
                         ++ "University of Technology" :: ["Master 2020"])
       "" sampleWorld
     = extractEducation (["Education"; "Bachelor of Computer Science"] ++ ["Master 2020"])
         "" sampleWorld.
Proof.
  split.
  - apply (proj1 (inert_lines_are_dropped ["Experience"; "Acme Corp 2019-2021"]
                    ["Globex 2016"] "Developed web applications" "" sampleWorld));
      reflexivity.
  - apply (proj2 (inert_lines_are_dropped ["Education"; "Bachelor of Computer Science"]
                    ["Master 2020"] "University of Technology" "" sampleWorld));
      reflexivity.
Defined.

(** The repository's test "handles text without clear sections", on the
    model: no line has a header keyword, so the three lists are empty. *)
Lemma no_header_no_entries_witness :
  exists d w',
    extractDataFromText "Just some random text without proper structure" sampleWorld = Ok d w'
    /\ experience d = [] /\ skills d = [] /\ education d = [].
Proof.
  apply (no_header_no_entries "Just some random text without proper structure" sampleWorld).
  intros l [<-|[]]. reflexivity.
Defined.
